(** * Scheduled policy runner and scheduled restore trigger

    A shallow embedding of the two scripts of the repository,
    [run_schedules.py] and [trigger-scheduled-restore.py], and the
    properties of their data-transformation routines.

    Python values are embedded as an inductive type, dictionaries as
    insertion-ordered association lists, exceptions as an explicit
    outcome, and the vendor SDK as the operations of a section. *)

From Stdlib Require Import ZArith List String Ascii Bool Lia.
From Stdlib Require Import Floats.SpecFloat.
From Stdlib Require Import Sorting.Sorted.
Import ListNotations.

Set Warnings "-register-all,-notation-for-abbreviation".

Local Open Scope string_scope.
Local Open Scope list_scope.

(* ================================================================= *)
(** ** Python values *)

Module Py.

(** The values a decoded JSON document or an SDK dictionary holds.
    A dictionary keeps its insertion order; its keys are strings. *)
Inductive value : Type :=
| VNone
| VBool (b : bool)
| VInt (z : Z)
| VFloat (f : spec_float)
| VStr (s : string)
| VList (l : list value)
| VDict (d : list (string * value)).

Definition dict : Type := list (string * value).

(** The exceptions the modelled code can raise. *)
Inductive exn : Type :=
| RuntimeError (msg : string)
| AttributeError
| TypeError
| ValueError.

(** Truth value of an object, as [bool(x)], [not x] and [x or y] see it. *)
Definition truthy (v : value) : bool :=
  match v with
  | VNone => false
  | VBool b => b
  | VInt z => negb (Z.eqb z 0)
  | VFloat (S754_zero _) => false
  | VFloat _ => true
  | VStr s => negb (String.eqb s "")
  | VList l => match l with [] => false | _ :: _ => true end
  | VDict d => match d with [] => false | _ :: _ => true end
  end.

(** [x or y] on already evaluated operands (both operands of every [or]
    in the scripts are [dict.get] calls on the same dictionary). *)
Definition py_or (x y : value) : value := if truthy x then x else y.

(** [x == s] for a string literal [s]. *)
Definition eq_str (x : value) (s : string) : bool :=
  match x with
  | VStr t => String.eqb t s
  | _ => false
  end.

(** [x is not None] *)
Definition is_not_None (x : value) : bool :=
  match x with
  | VNone => false
  | _ => true
  end.

Fixpoint dict_get (d : dict) (k : string) : option value :=
  match d with
  | [] => None
  | (k', v) :: d' => if String.eqb k k' then Some v else dict_get d' k
  end.

(** [d.get(k)] and [d.get(k, dflt)] on a dictionary. *)
Definition get_or (d : dict) (k : string) (dflt : value) : value :=
  match dict_get d k with
  | Some v => v
  | None => dflt
  end.

(** [d[k] = v]: an existing key keeps its position, a new one goes last. *)
Fixpoint dict_set (d : dict) (k : string) (v : value) : dict :=
  match d with
  | [] => [(k, v)]
  | (k', v') :: d' =>
      if String.eqb k k' then (k', v) :: d' else (k', v') :: dict_set d' k v
  end.

Definition keys (d : dict) : list string := map fst d.

Fixpoint chars (s : string) : list value :=
  match s with
  | EmptyString => []
  | String c s' => VStr (String c EmptyString) :: chars s'
  end.

End Py.

Import Py.

(* ================================================================= *)
(** ** trigger-scheduled-restore.py *)

Module TriggerScheduledRestore.

(** What a call yields: a value, a raised exception, or [Unsupported]
    for the one input shape left outside the embedding (see [py_dict]). *)
Inductive outcome (A : Type) : Type :=
| Ret (a : A)
| Raise (e : exn)
| Unsupported.

Arguments Ret {A} a.
Arguments Raise {A} e.
Arguments Unsupported {A}.

Definition bind {A B : Type} (m : outcome A) (k : A -> outcome B) : outcome B :=
  match m with
  | Ret a => k a
  | Raise e => Raise e
  | Unsupported => Unsupported
  end.

Notation "x <- m ;; k" := (bind m (fun x => k))
  (at level 61, m at next level, right associativity).

(** [x.get(k, dflt)] on an arbitrary object: only a dictionary has the
    method. *)
Definition py_get (x : value) (k : string) (dflt : value) : outcome value :=
  match x with
  | VDict d => Ret (get_or d k dflt)
  | _ => Raise AttributeError
  end.

(** The items a [for] loop draws from an object. *)
Definition py_iter (x : value) : outcome (list value) :=
  match x with
  | VList l => Ret l
  | VDict d => Ret (map VStr (keys d))
  | VStr s => Ret (chars s)
  | _ => Raise TypeError
  end.

(** [dict(x)]: a shallow copy of a dictionary, the empty dictionary for
    an empty list or string, a [TypeError] for an object that is not
    iterable and a [ValueError] for a non-empty string (its items have
    length one). A non-empty list is a sequence of key/value pairs whose
    keys need not be strings; it is left outside the embedding. *)
Definition py_dict (x : value) : outcome dict :=
  match x with
  | VDict d => Ret d
  | VList [] => Ret []
  | VList (_ :: _) => Unsupported
  | VStr s => if String.eqb s "" then Ret [] else Raise ValueError
  | _ => Raise TypeError
  end.

Definition ASSOCIATION_FIELDS : list string :=
  ["clientName"; "appName"; "instanceId"; "backupsetId"; "subclientId"].

(** The dictionary literal built for one association [a]. *)
Definition normalize_association (a : value) : outcome value :=
  clientName <- py_get a "clientName" VNone ;;
  appName <- py_get a "appName" VNone ;;
  instanceId <- py_get a "instanceId" VNone ;;
  backupsetId <- py_get a "backupsetId" VNone ;;
  subclientId <- py_get a "subclientId" VNone ;;
  Ret (VDict [("clientName", clientName);
              ("appName", appName);
              ("instanceId", instanceId);
              ("backupsetId", backupsetId);
              ("subclientId", subclientId)]).

Fixpoint normalize_loop (items : list value) : outcome (list value) :=
  match items with
  | [] => Ret []
  | a :: rest =>
      a' <- normalize_association a ;;
      rest' <- normalize_loop rest ;;
      Ret (a' :: rest')
  end.

Definition normalize_associations (associations : value) : outcome value :=
  items <- py_iter associations ;;
  out <- normalize_loop items ;;
  Ret (VList out).

(** [is_in_place_restore]: in place exactly when the destination is
    absent or empty. *)
Definition is_in_place_restore (restore_opts : dict) : bool :=
  let dest := get_or restore_opts "destination" VNone in
  negb (truthy dest).

(** The loop that finds the first RESTORE subtask; [restore_opts] starts
    as the empty dictionary. *)
Fixpoint find_restore_opts (sub_tasks : list value) : outcome value :=
  match sub_tasks with
  | [] => Ret (VDict [])
  | st :: rest =>
      subtask <- py_get st "subTask" (VDict []) ;;
      operationType <- py_get subtask "operationType" VNone ;;
      is_restore <-
        (if eq_str operationType "RESTORE" then Ret true
         else subTaskType <- py_get subtask "subTaskType" VNone ;;
              Ret (eq_str subTaskType "RESTORE")) ;;
      if (is_restore : bool) then
        options <- py_get st "options" (VDict []) ;;
        py_get options "restoreOptions" (VDict [])
      else find_restore_opts rest
  end.

Definition FLAG_KEYS : list string := ["overwriteFiles"; "restoreACLsType"].

Definition MSG_NO_ASSOCIATIONS : string :=
  "Schedule has no associations; cannot build restore request.".

Definition MSG_NO_DESTINATION : string :=
  "Destination missing and schedule does not appear to be in-place. Provide OVERRIDES['destination'] with destClient and destPath.".

Section Builder.

(** The hand-edited module constant. *)
Variable OVERRIDES : dict.

Definition override_destination (merged : dict) : dict :=
  if truthy (get_or OVERRIDES "destination" VNone)
  then dict_set merged "destination" (get_or OVERRIDES "destination" VNone)
  else merged.

Definition override_flag (merged : dict) (k : string) : dict :=
  if is_not_None (get_or OVERRIDES k VNone)
  then dict_set merged k (get_or OVERRIDES k VNone)
  else merged.

Definition apply_overrides (restore_opts : dict) : dict :=
  fold_left override_flag FLAG_KEYS (override_destination restore_opts).

Definition task_envelope (associations : value) (merged_restore_opts : dict) : value :=
  VDict [("taskInfo", VDict [
    ("task", VDict [("initiatedFrom", VStr "COMMANDLINE");
                    ("taskType", VInt 0);
                    ("policyType", VStr "DATA_PROTECTION");
                    ("taskFlags", VDict [("disabled", VBool false)])]);
    ("associations", associations);
    ("subTasks", VList [
       VDict [("subTask", VDict [("subTaskType", VStr "RESTORE");
                                 ("operationType", VStr "RESTORE")]);
              ("options", VDict [("restoreOptions", VDict merged_restore_opts)])]])])].

Definition build_restore_payload (props : value) : outcome value :=
  ti <- py_get props "taskInfo" (VDict []) ;;
  associations <- py_get ti "associations" (VList []) ;;
  sub_tasks <- py_get ti "subTasks" (VList []) ;;
  if negb (truthy associations) then Raise (RuntimeError MSG_NO_ASSOCIATIONS)
  else
    items <- py_iter sub_tasks ;;
    restore_opts <- find_restore_opts items ;;
    copied <- py_dict restore_opts ;;
    let merged_restore_opts := apply_overrides copied in
    let dest := get_or merged_restore_opts "destination" (VDict []) in
    if negb (truthy dest) && negb (is_in_place_restore merged_restore_opts)
    then Raise (RuntimeError MSG_NO_DESTINATION)
    else
      normalized <- normalize_associations associations ;;
      Ret (task_envelope normalized merged_restore_opts).

End Builder.

(** [OVERRIDES] as the repository ships it. *)
Definition OVERRIDES_shipped : dict :=
  [("destination",
     VDict [("destClient", VDict [("clientName", VStr "target-client")]);
            ("destPath", VList [VStr "E:\restore_target"])]);
   ("overwriteFiles", VBool true);
   ("restoreACLsType", VStr "ACL_DATA")].

End TriggerScheduledRestore.

(* ================================================================= *)
(** ** run_schedules.py *)

Module RunSchedules.

(** *** Policy invocation *)

(** What an SDK call yields: a value, or a raised [Exception]. *)
Inductive res (E A : Type) : Type :=
| Val (a : A)
| Exc (e : E).

Arguments Val {E A} a.
Arguments Exc {E A} e.

(** [sp.get] takes a policy name or a task id. *)
Inductive policy_key : Type :=
| ByName (name : string)
| ByTaskId (task_id : Z).

(** The lines the two runners print. *)
Inductive run_line (E JobIds : Type) : Type :=
| InfoFound (count : nat)
| WarnNameNotFound (name : string)
| OkName (name : string) (job_ids : JobIds)
| ErrorName (name : string) (e : E)
| WarnTaskIdNotFound (task_id : Z)
| OkTaskId (task_id : Z) (job_ids : JobIds)
| ErrorTaskId (task_id : Z) (e : E).

Arguments InfoFound {E JobIds} count.
Arguments WarnNameNotFound {E JobIds} name.
Arguments OkName {E JobIds} name job_ids.
Arguments ErrorName {E JobIds} name e.
Arguments WarnTaskIdNotFound {E JobIds} task_id.
Arguments OkTaskId {E JobIds} task_id job_ids.
Arguments ErrorTaskId {E JobIds} task_id e.

Section PolicyInvocation.

(** The CommCell as the SDK shows it: every call may change its state
    and may raise. *)
Variable World : Type.
Variable SdkError : Type.
Variable Policy : Type.
Variable JobIds : Type.

Variable SchedulePolicies : World -> res SdkError unit * World.
Variable all_schedule_policies : World -> res SdkError nat * World.
Variable has_policy : string -> World -> res SdkError bool * World.
Variable get : policy_key -> World -> res SdkError Policy * World.
Variable run_now : Policy -> World -> res SdkError JobIds * World.

Definition line : Type := run_line SdkError JobIds.

(** The state a runner threads: the CommCell and the lines printed. *)
Definition run_result : Type := res SdkError unit * World * list line.

Fixpoint names_loop (names : list string) (w : World) (out : list line)
  : run_result :=
  match names with
  | [] => (Val tt, w, out)
  | name :: rest =>
      match has_policy name w with
      | (Exc e, w1) => (Exc e, w1, out)
      | (Val false, w1) => names_loop rest w1 (out ++ [WarnNameNotFound name])
      | (Val true, w1) =>
          match get (ByName name) w1 with
          | (Exc e, w2) => (Exc e, w2, out)
          | (Val policy, w2) =>
              match run_now policy w2 with
              | (Val job_ids, w3) =>
                  names_loop rest w3 (out ++ [OkName name job_ids])
              | (Exc e, w3) =>
                  names_loop rest w3 (out ++ [ErrorName name e])
              end
          end
      end
  end.

Definition run_by_names (names : list string) (w : World) (out : list line)
  : run_result :=
  match SchedulePolicies w with
  | (Exc e, w1) => (Exc e, w1, out)
  | (Val _, w1) =>
      match all_schedule_policies w1 with
      | (Exc e, w2) => (Exc e, w2, out)
      | (Val count, w2) => names_loop names w2 (out ++ [InfoFound count])
      end
  end.

Fixpoint task_ids_loop (ids : list Z) (w : World) (out : list line)
  : run_result :=
  match ids with
  | [] => (Val tt, w, out)
  | task_id :: rest =>
      match get (ByTaskId task_id) w with
      | (Exc _, w1) =>
          task_ids_loop rest w1 (out ++ [WarnTaskIdNotFound task_id])
      | (Val policy, w1) =>
          match run_now policy w1 with
          | (Val job_ids, w2) =>
              task_ids_loop rest w2 (out ++ [OkTaskId task_id job_ids])
          | (Exc e, w2) =>
              task_ids_loop rest w2 (out ++ [ErrorTaskId task_id e])
          end
      end
  end.

Definition run_by_task_ids (ids : list Z) (w : World) (out : list line)
  : run_result :=
  match SchedulePolicies w with
  | (Exc e, w1) => (Exc e, w1, out)
  | (Val _, w1) => task_ids_loop ids w1 out
  end.

(** What processing a batch of names means: every name, in order, is
    looked up and either skipped with a warning or run, whether or not
    the runs before it raised. *)
Inductive NamesProcessed : list string -> World -> list line -> World -> Prop :=
| NP_done w : NamesProcessed [] w [] w
| NP_absent name rest w w1 w' ls :
    has_policy name w = (Val false, w1) ->
    NamesProcessed rest w1 ls w' ->
    NamesProcessed (name :: rest) w (WarnNameNotFound name :: ls) w'
| NP_started name rest w w1 w2 w3 w' policy job_ids ls :
    has_policy name w = (Val true, w1) ->
    get (ByName name) w1 = (Val policy, w2) ->
    run_now policy w2 = (Val job_ids, w3) ->
    NamesProcessed rest w3 ls w' ->
    NamesProcessed (name :: rest) w (OkName name job_ids :: ls) w'
| NP_failed name rest w w1 w2 w3 w' policy e ls :
    has_policy name w = (Val true, w1) ->
    get (ByName name) w1 = (Val policy, w2) ->
    run_now policy w2 = (Exc e, w3) ->
    NamesProcessed rest w3 ls w' ->
    NamesProcessed (name :: rest) w (ErrorName name e :: ls) w'.

Inductive TaskIdsProcessed : list Z -> World -> list line -> World -> Prop :=
| TP_done w : TaskIdsProcessed [] w [] w
| TP_absent task_id rest w w1 w' e ls :
    get (ByTaskId task_id) w = (Exc e, w1) ->
    TaskIdsProcessed rest w1 ls w' ->
    TaskIdsProcessed (task_id :: rest) w (WarnTaskIdNotFound task_id :: ls) w'
| TP_started task_id rest w w1 w2 w' policy job_ids ls :
    get (ByTaskId task_id) w = (Val policy, w1) ->
    run_now policy w1 = (Val job_ids, w2) ->
    TaskIdsProcessed rest w2 ls w' ->
    TaskIdsProcessed (task_id :: rest) w (OkTaskId task_id job_ids :: ls) w'
| TP_failed task_id rest w w1 w2 w' policy e ls :
    get (ByTaskId task_id) w = (Val policy, w1) ->
    run_now policy w1 = (Exc e, w2) ->
    TaskIdsProcessed rest w2 ls w' ->
    TaskIdsProcessed (task_id :: rest) w (ErrorTaskId task_id e :: ls) w'.

(** The constructor both runners call before their loop returns. *)
Definition constructor_returns : Prop :=
  forall w, exists w1, SchedulePolicies w = (Val tt, w1).

(** The other SDK calls [run_by_names] makes outside a [try] block
    return: the listing and the presence test do not raise, and a policy
    reported present is fetched. *)
Definition name_lookups_return : Prop :=
  (forall w, exists n w1, all_schedule_policies w = (Val n, w1)) /\
  (forall name w, exists b w1, has_policy name w = (Val b, w1)) /\
  (forall name w w1, has_policy name w = (Val true, w1) ->
     exists p w2, get (ByName name) w1 = (Val p, w2)).

End PolicyInvocation.

Arguments names_loop {World SdkError Policy JobIds}.
Arguments run_by_names {World SdkError Policy JobIds}.
Arguments task_ids_loop {World SdkError Policy JobIds}.
Arguments run_by_task_ids {World SdkError Policy JobIds}.
Arguments NamesProcessed {World SdkError Policy JobIds}.
Arguments TaskIdsProcessed {World SdkError Policy JobIds}.
Arguments constructor_returns {World SdkError}.
Arguments name_lookups_return {World SdkError Policy}.

(** *** Recent-jobs scan *)

(** An aware UTC [datetime], as microseconds since the epoch. *)
Definition datetime : Type := Z.

(** The timestamps of 0001-01-01T00:00:00 and 9999-12-31T23:59:59 UTC,
    the range of [datetime] (CPython on a POSIX platform). *)
Definition MIN_TIMESTAMP : Z := -62135596800.
Definition MAX_TIMESTAMP : Z := 253402300799.

Definition int_timestamp (z : Z) : option datetime :=
  if (MIN_TIMESTAMP <=? z)%Z && (z <=? MAX_TIMESTAMP)%Z
  then Some (z * 1000000)%Z
  else None.

(** [isinstance(x, (int, float))]; [bool] is a subclass of [int]. *)
Definition is_int_or_float (x : value) : bool :=
  match x with
  | VBool _ | VInt _ | VFloat _ => true
  | _ => false
  end.

(** Python's [needle in haystack] on strings. *)
Fixpoint contains (needle haystack : string) : bool :=
  String.prefix needle haystack ||
  match haystack with
  | EmptyString => false
  | String _ rest => contains needle rest
  end.

(** What the [try] body of the scan does with one entry. *)
Inductive scanned (A : Type) : Type :=
| Appended (a : A)
| NotAppended
| Raised.

Arguments Appended {A} a.
Arguments NotAppended {A}.
Arguments Raised {A}.

(** One tuple of [recent]: job id, submit time, status. *)
Definition recent_job : Type := Z * datetime * value.

Definition submitted_of (r : recent_job) : datetime := snd (fst r).

(** [list.sort(key=...)] is stable: equal keys keep their order. *)
Fixpoint insert_by_time (r : recent_job) (sorted : list recent_job)
  : list recent_job :=
  match sorted with
  | [] => [r]
  | r' :: rest =>
      if (submitted_of r <=? submitted_of r')%Z then r :: sorted
      else r' :: insert_by_time r rest
  end.

Definition sort_by_time (l : list recent_job) : list recent_job :=
  fold_right insert_by_time [] l.

Inductive jobs_line : Type :=
| InfoJobsSubmitted (user : string) (minutes : Z)
| JobLine (jid : Z) (t : datetime) (status : value)
| InfoNoRecentJobs (user : string) (minutes : Z).

Section RecentJobs.

(** The configuration constants of the script. *)
Variable USER : string.
Variable RECENT_WINDOW_MINUTES : Z.

(** [str.lower], and [datetime.fromtimestamp(x, tz=utc)] on a float
    ([None] when it raises), both left to the Python runtime. *)
Variable lower : string -> string.
Variable float_timestamp : spec_float -> option datetime.

(** [datetime.fromtimestamp(x, tz=timezone.utc)]; [None] when it raises. *)
Definition fromtimestamp (x : value) : option datetime :=
  match x with
  | VBool b => int_timestamp (if b then 1 else 0)
  | VInt z => int_timestamp z
  | VFloat f => float_timestamp f
  | _ => None
  end.

(** [cutoff = now - timedelta(minutes=RECENT_WINDOW_MINUTES)] *)
Definition cutoff_of (now : datetime) : datetime :=
  (now - RECENT_WINDOW_MINUTES * 60000000)%Z.

Definition submit_time_of (d : dict) : value :=
  py_or (get_or d "submitTime" VNone) (get_or d "startTime" VNone).

Definition user_field_of (d : dict) : value :=
  py_or (py_or (get_or d "userName" VNone) (get_or d "user" VNone)) (VStr "").

(** The body of the [try] block for one job. *)
Definition scan_entry (cutoff : datetime) (jid : Z) (details : value)
  : scanned recent_job :=
  match details with
  | VDict d =>
      let submit_time := submit_time_of d in
      let submitted :=
        if is_int_or_float submit_time
        then match fromtimestamp submit_time with
             | Some t => Appended (Some t)
             | None => Raised
             end
        else Appended None in
      match submitted with
      | Appended submitted =>
          match user_field_of d with
          | VStr u =>
              let user := lower u in
              match submitted with
              | Some t =>
                  if (cutoff <=? t)%Z && contains (lower USER) user
                  then Appended (jid, t, get_or d "status" VNone)
                  else NotAppended
              | None => NotAppended
              end
          | _ => Raised
          end
      | _ => Raised
      end
  | _ => Raised
  end.

Fixpoint scan (cutoff : datetime) (items : list (Z * value))
  (recent : list recent_job) : list recent_job :=
  match items with
  | [] => recent
  | (jid, details) :: rest =>
      match scan_entry cutoff jid details with
      | Appended r => scan cutoff rest (recent ++ [r])
      | NotAppended | Raised => scan cutoff rest recent
      end
  end.

Definition print_jobs (recent : list recent_job) : list jobs_line :=
  map (fun r => JobLine (fst (fst r)) (snd (fst r)) (snd r)) recent.

(** [list_recent_jobs]: the clock reading and the job dictionary that
    [jc.all_jobs()] returned ([None] for a [None] return) are inputs,
    the printed lines the result. *)
Definition list_recent_jobs (now : datetime)
  (all_jobs : option (list (Z * value))) : list jobs_line :=
  let cutoff := cutoff_of now in
  let items := match all_jobs with Some d => d | None => [] end in
  let recent := scan cutoff items [] in
  match recent with
  | _ :: _ =>
      InfoJobsSubmitted USER RECENT_WINDOW_MINUTES ::
      print_jobs (sort_by_time recent)
  | [] => [InfoNoRecentJobs USER RECENT_WINDOW_MINUTES]
  end.

End RecentJobs.

(** The constants as the repository ships them. *)
Definition USER_shipped : string := "<username>".
Definition RECENT_WINDOW_MINUTES_shipped : Z := 3.

(** [str.lower] on ASCII text: letters outside A-Z are left as they
    are. This instance only fills [lower] where the text is ASCII. *)
Definition ascii_lower_char (c : ascii) : ascii :=
  let n := nat_of_ascii c in
  if (65 <=? n)%nat && (n <=? 90)%nat then ascii_of_nat (n + 32) else c.

Fixpoint ascii_lower (s : string) : string :=
  match s with
  | EmptyString => EmptyString
  | String c rest => String (ascii_lower_char c) (ascii_lower rest)
  end.

(** A float timestamp converted exactly: its value rounded to the
    nearest microsecond, ties to even; infinities and NaN raise.
    CPython rounds the product of the fraction and 1e6 as computed in
    double arithmetic, which can differ by a microsecond (at 2.5e-06
    for one); this instance only fills [float_timestamp] where the jobs
    carry integer times. *)
Definition round_half_even (num den : Z) : Z :=
  let q := (num / den)%Z in
  let r := (num mod den)%Z in
  if (2 * r <? den)%Z then q
  else if (den <? 2 * r)%Z then (q + 1)%Z
  else if Z.even q then q else (q + 1)%Z.

Definition exact_float_timestamp (f : spec_float) : option datetime :=
  match f with
  | S754_zero _ => Some 0%Z
  | S754_infinity _ | S754_nan => None
  | S754_finite s m e =>
      let magnitude :=
        if (0 <=? e)%Z then (Zpos m * 2 ^ e * 1000000)%Z
        else round_half_even (Zpos m * 1000000) (2 ^ (- e)) in
      let us := if s then (- magnitude)%Z else magnitude in
      if (MIN_TIMESTAMP * 1000000 <=? us)%Z &&
         (us <? (MAX_TIMESTAMP + 1) * 1000000)%Z
      then Some us else None
  end.

End RunSchedules.

(* ================================================================= *)
(** ** Reading a payload back, and the shapes of a schedule document *)

Module RestoreSpec.

Import TriggerScheduledRestore.

(** [payload["taskInfo"]["subTasks"][0]["options"]["restoreOptions"]] *)
Definition payload_restore_options (payload : value) : option dict :=
  match payload with
  | VDict p =>
      match dict_get p "taskInfo" with
      | Some (VDict ti) =>
          match dict_get ti "subTasks" with
          | Some (VList (VDict st :: _)) =>
              match dict_get st "options" with
              | Some (VDict o) =>
                  match dict_get o "restoreOptions" with
                  | Some (VDict m) => Some m
                  | _ => None
                  end
              | _ => None
              end
          | _ => None
          end
      | _ => None
      end
  | _ => None
  end.

(** [payload["taskInfo"]["associations"]] *)
Definition payload_associations (payload : value) : option value :=
  match payload with
  | VDict p =>
      match dict_get p "taskInfo" with
      | Some (VDict ti) => dict_get ti "associations"
      | _ => None
      end
  | _ => None
  end.

(** The restore options the schedule itself defines: the block the
    builder copies before it applies the overrides. *)
Definition schedule_restore_opts (props : value) : outcome dict :=
  ti <- py_get props "taskInfo" (VDict []) ;;
  sub_tasks <- py_get ti "subTasks" (VList []) ;;
  items <- py_iter sub_tasks ;;
  restore_opts <- find_restore_opts items ;;
  py_dict restore_opts.

(** The restore-options block of one subtask entry. *)
Definition restore_block (st : value) : outcome dict :=
  options <- py_get st "options" (VDict []) ;;
  restore_opts <- py_get options "restoreOptions" (VDict []) ;;
  py_dict restore_opts.

(** Whether a subtask entry is a RESTORE one; [None] for an entry that
    is not an object or whose [subTask] field is not an object. *)
Definition subtask_is_restore (st : value) : option bool :=
  match st with
  | VDict d =>
      match get_or d "subTask" (VDict []) with
      | VDict s =>
          Some (eq_str (get_or s "operationType" VNone) "RESTORE" ||
                eq_str (get_or s "subTaskType" VNone) "RESTORE")
      | _ => None
      end
  | _ => None
  end.

Definition is_dict (v : value) : bool :=
  match v with
  | VDict _ => true
  | _ => false
  end.

(** An override the builder applies: a destination that is set and not
    empty, a flag that is not [None]. *)
Definition configured (OVERRIDES : dict) (k : string) : bool :=
  (String.eqb k "destination" && truthy (get_or OVERRIDES "destination" VNone)) ||
  (existsb (String.eqb k) FLAG_KEYS && is_not_None (get_or OVERRIDES k VNone)).

(** A schedule document with the subtask list [l] put in place. *)
Definition with_sub_tasks (props ti : dict) (l : list value) : value :=
  VDict (dict_set props "taskInfo" (VDict (dict_set ti "subTasks" (VList l)))).

(** What normalization makes of one association object. *)
Definition normalized_entry (a : dict) : value :=
  VDict (map (fun k => (k, get_or a k VNone)) ASSOCIATION_FIELDS).

Definition normalized_value (a : value) : value :=
  match a with
  | VDict d => normalized_entry d
  | _ => VNone
  end.

(** *** Sample documents *)

Definition sample_association : value :=
  VDict [("clientName", VStr "fs01"); ("appName", VStr "File System");
         ("instanceId", VInt 1); ("backupsetId", VInt 7);
         ("subclientId", VInt 42); ("displayName", VStr "fs01 default")].

Definition sample_backup_subtask : value :=
  VDict [("subTask", VDict [("subTaskType", VStr "BACKUP");
                            ("operationType", VStr "BACKUP")]);
         ("options", VDict [("backupOpts", VDict [("backupLevel", VStr "FULL")])])].

Definition sample_restore_subtask : value :=
  VDict [("subTask", VDict [("subTaskType", VStr "RESTORE");
                            ("operationType", VStr "RESTORE")]);
         ("options", VDict [("restoreOptions",
            VDict [("overwriteFiles", VBool false);
                   ("browseOption", VDict [("commCellId", VInt 2)])])])].

Definition sample_later_restore_subtask : value :=
  VDict [("subTask", VDict [("operationType", VStr "RESTORE")]);
         ("options", VDict [("restoreOptions",
            VDict [("destination", VDict [("destPath", VList [VStr "/other"])])])])].

Definition sample_task_info (sub_tasks : list value) : dict :=
  [("associations", VList [sample_association]);
   ("subTasks", VList sub_tasks)].

Definition sample_props (sub_tasks : list value) : dict :=
  [("taskInfo", VDict (sample_task_info sub_tasks))].

(** Overrides with the destination commented out. *)
Definition OVERRIDES_no_destination : dict :=
  [("overwriteFiles", VBool true); ("restoreACLsType", VStr "ACL_DATA")].

End RestoreSpec.

(* ================================================================= *)
(** ** What the recent-jobs scan keeps, and a sample CommCell *)

Module ScanSpec.

Import RunSchedules.

Section Kept.

Variable USER : string.
Variable lower : string -> string.
Variable float_timestamp : spec_float -> option datetime.

(** The submit time of an entry: the instant its [submitTime] (or, when
    that is absent or falsy, its [startTime]) denotes, if it is a number
    that [datetime.fromtimestamp] accepts. *)
Definition entry_submitted (d : dict) : option datetime :=
  if is_int_or_float (submit_time_of d)
  then fromtimestamp float_timestamp (submit_time_of d)
  else None.

(** The entry was submitted at or after the cutoff. *)
Definition in_window (cutoff : datetime) (d : dict) : bool :=
  match entry_submitted d with
  | Some t => (cutoff <=? t)%Z
  | None => false
  end.

(** The user field ([userName], else [user]) holds, in lower case, the
    lower-cased configured user as a substring. *)
Definition user_contains (d : dict) : bool :=
  match user_field_of d with
  | VStr u => contains (lower USER) (lower u)
  | _ => false
  end.

End Kept.

(** The submit times of the job lines of an output, in print order. *)
Fixpoint job_line_times (out : list jobs_line) : list datetime :=
  match out with
  | [] => []
  | JobLine _ t _ :: rest => t :: job_line_times rest
  | _ :: rest => job_line_times rest
  end.

(** *** Sample jobs; the clock reads 2023-11-14T22:13:20Z *)

Definition sample_now : datetime := 1700000000000000%Z.

Definition sample_job_other_user : dict :=
  [("submitTime", VInt 1699999990);
   ("userName", VStr "Not-<UserName>-2");
   ("status", VStr "Running")].

Definition sample_job_mine : dict :=
  [("submitTime", VInt 1699999900);
   ("userName", VStr "<USERNAME>");
   ("status", VStr "Completed")].

Definition sample_job_old : dict :=
  [("submitTime", VInt 1699990000);
   ("userName", VStr "<username>");
   ("status", VStr "Completed")].

Definition sample_job_iso : dict :=
  [("submitTime", VStr "2023-11-14T22:13:00Z");
   ("startTime", VInt 1699999980);
   ("userName", VStr "<username>");
   ("status", VStr "Running")].

(** *** A sample CommCell
    Its state is the list of SDK calls made so far. Two policies exist,
    "Nightly" (task id 451) and "Weekly" (task id 777); running "Weekly"
    fails. *)

Definition sample_world : Type := list string.

Definition sample_SchedulePolicies (w : sample_world)
  : res string unit * sample_world :=
  (Val tt, w ++ ["SchedulePolicies"]).

Definition sample_all_schedule_policies (w : sample_world)
  : res string nat * sample_world :=
  (Val 2%nat, w ++ ["all_schedule_policies"]).

Definition sample_has_policy (name : string) (w : sample_world)
  : res string bool * sample_world :=
  (Val (String.eqb name "Nightly" || String.eqb name "Weekly"),
   w ++ [("has_policy " ++ name)%string]).

Definition sample_get (k : policy_key) (w : sample_world)
  : res string string * sample_world :=
  match k with
  | ByName name =>
      if String.eqb name "Nightly" || String.eqb name "Weekly"
      then (Val name, w ++ [("get " ++ name)%string])
      else (Exc "no such policy", w ++ [("get " ++ name)%string])
  | ByTaskId task_id =>
      if (task_id =? 451)%Z then (Val "Nightly", w ++ ["get Nightly"])
      else if (task_id =? 777)%Z then (Val "Weekly", w ++ ["get Weekly"])
      else (Exc "no such policy", w ++ ["get unknown id"])
  end.

Definition sample_run_now (policy : string) (w : sample_world)
  : res string (list Z) * sample_world :=
  if String.eqb policy "Weekly"
  then (Exc "run failed", w ++ [("run_now " ++ policy)%string])
  else (Val [9001%Z], w ++ [("run_now " ++ policy)%string]).

End ScanSpec.

(* ================================================================= *)
(** ** Further readings of a schedule document and of a payload *)

Module RestoreExtraSpec.

Import TriggerScheduledRestore.

(** [props.get("taskInfo", {}).get("associations", [])] *)
Definition schedule_associations (props : value) : outcome value :=
  ti <- py_get props "taskInfo" (VDict []) ;;
  py_get ti "associations" (VList []).

(** [payload["taskInfo"]["subTasks"]] *)
Definition payload_sub_tasks (payload : value) : option (list value) :=
  match payload with
  | VDict p =>
      match dict_get p "taskInfo" with
      | Some (VDict ti) =>
          match dict_get ti "subTasks" with
          | Some (VList l) => Some l
          | _ => None
          end
      | _ => None
      end
  | _ => None
  end.

(** A call that raises no [RuntimeError]. *)
Definition no_runtime_error {A : Type} (o : outcome A) : Prop :=
  forall msg, o <> Raise (RuntimeError msg).

(** [k in d] *)
Definition has_key (d : dict) (k : string) : bool :=
  existsb (String.eqb k) (keys d).

(** The override keys, in the order the builder applies them. *)
Definition OVERRIDE_KEYS : list string :=
  "destination" :: FLAG_KEYS.

End RestoreExtraSpec.

(* ================================================================= *)
(** ** Entries the scan keeps, entries it cannot read *)

Module ScanExtraSpec.

Import RunSchedules ScanSpec.

Section Entries.

Variable USER : string.
Variable lower : string -> string.
Variable float_timestamp : spec_float -> option datetime.

(** An entry of the job dictionary that passes both tests of the scan. *)
Definition qualifies (cutoff : datetime) (entry : Z * value) : bool :=
  match snd entry with
  | VDict d =>
      in_window float_timestamp cutoff d && user_contains USER lower d
  | _ => false
  end.

(** An entry on which the [try] body raises: it is no object, its
    numeric submit time is one [datetime.fromtimestamp] refuses, or its
    user field is not a string. *)
Definition body_raises (details : value) : bool :=
  match details with
  | VDict d =>
      (is_int_or_float (submit_time_of d) &&
       match fromtimestamp float_timestamp (submit_time_of d) with
       | Some _ => false
       | None => true
       end) ||
      match user_field_of d with
      | VStr _ => false
      | _ => true
      end
  | _ => true
  end.

End Entries.


(** Two jobs of the configured user submitted in the same second, and
    entries the scan cannot read. *)
Definition sample_job_tie_a : dict :=
  [("submitTime", VInt 1699999950); ("user", VStr "<username>");
   ("status", VStr "Running")].

Definition sample_job_tie_b : dict :=
  [("startTime", VInt 1699999950); ("userName", VStr "<username>");
   ("status", VStr "Queued")].

Definition sample_job_millis : dict :=
  [("submitTime", VInt 1699999950000); ("userName", VStr "<username>")].

Definition sample_job_user_id : dict :=
  [("submitTime", VInt 1699999950); ("userName", VInt 12)].

(** A CommCell on which fetching "Weekly" fails although it is
    reported present. *)
Definition sample_flaky_get (k : policy_key) (w : sample_world)
  : res string string * sample_world :=
  match k with
  | ByName name =>
      if String.eqb name "Weekly"
      then (Exc "connection reset", w ++ [("get " ++ name)%string])
      else sample_get k w
  | ByTaskId _ => sample_get k w
  end.

End ScanExtraSpec.

(* ================================================================= *)
(** ** trigger-scheduled-restore.py: the REST calls and [main] *)

Module RestoreMain.

Import TriggerScheduledRestore.

(** What [requests] hands back: the status code and the JSON document
    of the body, [None] when the body does not decode. *)
Record response : Type := {
  status_code : Z;
  json : option value
}.

(** The four calls of the script; each goes to its endpoint under BASE
    with the headers the script sets. *)
Inductive request : Type :=
| PostLogin (payload : value)
| GetSchedules (token : value) (task_id : Z)
| PostCreateTask (token : value) (payload : value)
| PostLogout (token : value).

(** How a run can fail. *)
Inductive failure (NetError : Type) : Type :=
| PyRaise (e : exn)
| HTTPError (status : Z)
| JSONDecodeError
| RequestFailed (e : NetError)
| SystemExit (code : Z).

Arguments PyRaise {NetError} e.
Arguments HTTPError {NetError} status.
Arguments JSONDecodeError {NetError}.
Arguments RequestFailed {NetError} e.
Arguments SystemExit {NetError} code.

(** The end of a computation: its value, the exception that left it, or
    [Beyond] where the builder's embedding ends. *)
Inductive flow (E A : Type) : Type :=
| Done (a : A)
| Fails (e : E)
| Beyond.

Arguments Done {E A} a.
Arguments Fails {E A} e.
Arguments Beyond {E A}.

Inductive main_line : Type :=
| ErrorNoTaskIds
| InfoLoggingIn
| InfoReading (task_id : Z)
| InfoSubmitting (task_id : Z)
| OkSubmitted (task_id : Z) (job_ids : value)
| InfoLoggedOut.

Definition MSG_NO_TOKEN : string :=
  "Login succeeded but no token in response.".

Section Script.

(** The server and the network, as [requests.post] and [requests.get]
    show them: a call changes the state and answers or raises. *)
Variable World : Type.
Variable NetError : Type.
Variable send : request -> World -> (response + NetError) * World.

(** The configuration constants, and [base64.b64encode] of the UTF-8
    bytes of a text. *)
Variable USER : string.
Variable PASS : string.
Variable OVERRIDES : dict.
Variable b64encode : string -> string.

(** The state [main] threads: the server and the lines printed. *)
Definition state : Type := World * list main_line.

Definition M (A : Type) : Type := state -> flow (failure NetError) A * state.

Definition ret {A : Type} (a : A) : M A := fun st => (Done a, st).

Definition raise {A : Type} (e : failure NetError) : M A :=
  fun st => (Fails e, st).

Definition mbind {A B : Type} (m : M A) (k : A -> M B) : M B :=
  fun st =>
    match m st with
    | (Done a, st1) => k a st1
    | (Fails e, st1) => (Fails e, st1)
    | (Beyond, st1) => (Beyond, st1)
    end.

Notation "x <-- m ;;; k" := (mbind m (fun x => k))
  (at level 61, m at next level, right associativity).
Notation "m ;;; k" := (mbind m (fun _ => k))
  (at level 61, right associativity).

Definition print (l : main_line) : M unit :=
  fun st => (Done tt, (fst st, snd st ++ [l])).

Definition call (rq : request) : M response :=
  fun st =>
    match send rq (fst st) with
    | (inl r, w) => (Done r, (w, snd st))
    | (inr e, w) => (Fails (RequestFailed e), (w, snd st))
    end.

(** The result of a pure call of the builder's embedding. *)
Definition lift {A : Type} (o : outcome A) : M A :=
  match o with
  | Ret a => ret a
  | Raise e => raise (PyRaise e)
  | Unsupported => fun st => (Beyond, st)
  end.

(** [r.raise_for_status()] *)
Definition raise_for_status (r : response) : M unit :=
  if (400 <=? status_code r)%Z && (status_code r <? 600)%Z
  then raise (HTTPError (status_code r))
  else ret tt.

(** [r.json()] *)
Definition json_of (r : response) : M value :=
  match json r with
  | Some v => ret v
  | None => raise JSONDecodeError
  end.

Definition login_payload : value :=
  VDict [("username", VStr USER);
         ("password", VStr (b64encode PASS));
         ("timeout", VInt 30)].

Definition login : M value :=
  r <-- call (PostLogin login_payload) ;;;
  raise_for_status r ;;;
  body <-- json_of r ;;;
  token <-- lift (py_get body "token" VNone) ;;;
  if negb (truthy token) then raise (PyRaise (RuntimeError MSG_NO_TOKEN))
  else ret token.

Definition get_schedule_properties (token : value) (task_id : Z) : M value :=
  r <-- call (GetSchedules token task_id) ;;;
  raise_for_status r ;;;
  json_of r.

Definition submit_restore (token : value) (payload : value) : M value :=
  r <-- call (PostCreateTask token payload) ;;;
  raise_for_status r ;;;
  json_of r.

(** [logout]: whatever the call raises is swallowed. *)
Definition logout (token : value) : M unit :=
  fun st =>
    match call (PostLogout token) st with
    | (_, st1) => (Done tt, st1)
    end.

(** The body of the loop of [main] for one schedule. *)
Definition restore_task (token : value) (task_id : Z) : M unit :=
  print (InfoReading task_id) ;;;
  props <-- get_schedule_properties token task_id ;;;
  payload <-- lift (build_restore_payload OVERRIDES props) ;;;
  print (InfoSubmitting task_id) ;;;
  resp <-- submit_restore token payload ;;;
  first <-- lift (py_get resp "jobIds" VNone) ;;;
  job_ids <-- (if truthy first then ret first
               else lift (py_get resp "jobIds" (VList []))) ;;;
  print (OkSubmitted task_id job_ids).

Fixpoint tasks_loop (token : value) (task_ids : list Z) : M unit :=
  match task_ids with
  | [] => ret tt
  | task_id :: rest => restore_task token task_id ;;; tasks_loop token rest
  end.

(** [try: body finally: cleanup], for a cleanup that returns. *)
Definition try_finally {A : Type} (body : M A) (cleanup : M unit) : M A :=
  fun st =>
    match body st with
    | (r, st1) =>
        match cleanup st1 with
        | (Done _, st2) => (r, st2)
        | (Fails e, st2) => (Fails e, st2)
        | (Beyond, st2) => (Beyond, st2)
        end
    end.

Definition main (RESTORE_SCHEDULE_TASK_IDS : list Z) : M unit :=
  match RESTORE_SCHEDULE_TASK_IDS with
  | [] => print ErrorNoTaskIds ;;; raise (SystemExit 1)
  | _ :: _ =>
      print InfoLoggingIn ;;;
      token <-- login ;;;
      try_finally (tasks_loop token RESTORE_SCHEDULE_TASK_IDS)
                  (logout token ;;; print InfoLoggedOut)
  end.

End Script.

Arguments login {World NetError}.
Arguments get_schedule_properties {World NetError}.
Arguments submit_restore {World NetError}.
Arguments logout {World NetError}.
Arguments restore_task {World NetError}.
Arguments tasks_loop {World NetError}.
Arguments main {World NetError}.
Arguments call {World NetError}.

(** *** A sample server
    Its state is the list of requests received. Login answers with the
    token "t0"; schedule 12 has a RESTORE subtask, schedule 13 has no
    associations, any other schedule is unknown (404); CreateTask
    answers with job 9100. *)

Definition sample_server : Type := list request.

Definition sample_send (rq : request) (w : sample_server)
  : (response + string) * sample_server :=
  (match rq with
   | PostLogin _ =>
       inl {| status_code := 200; json := Some (VDict [("token", VStr "t0")]) |}
   | GetSchedules _ task_id =>
       if (task_id =? 12)%Z then
         inl {| status_code := 200;
                json := Some (VDict (RestoreSpec.sample_props
                                       [RestoreSpec.sample_restore_subtask])) |}
       else if (task_id =? 13)%Z then
         inl {| status_code := 200;
                json := Some (VDict [("taskInfo", VDict [("subTasks", VList [])])]) |}
       else inl {| status_code := 404; json := None |}
   | PostCreateTask _ _ =>
       inl {| status_code := 200;
              json := Some (VDict [("jobIds", VList [VStr "9100"])]) |}
   | PostLogout _ => inr "connection closed"
   end, w ++ [rq]).

(** A server whose login answer carries no token. *)
Definition sample_send_no_token (rq : request) (w : sample_server)
  : (response + string) * sample_server :=
  match rq with
  | PostLogin _ =>
      (inl {| status_code := 200; json := Some (VDict []) |}, w ++ [rq])
  | _ => sample_send rq w
  end.

(** Base64 with the standard alphabet and padding, on the bytes of a
    text. *)
Definition B64_ALPHABET : string :=
  "ABCDEFGHIJKLMNOPQRSTUVWXYZabcdefghijklmnopqrstuvwxyz0123456789+/".

Definition b64_digit (n : N) : ascii :=
  match String.get (N.to_nat (n mod 64)) B64_ALPHABET with
  | Some c => c
  | None => "="%char
  end.

Fixpoint sample_b64encode (s : string) : string :=
  match s with
  | EmptyString => EmptyString
  | String a EmptyString =>
      let n := (N_of_ascii a * 65536)%N in
      String (b64_digit (n / 262144))
        (String (b64_digit (n / 4096)) "==")
  | String a (String b EmptyString) =>
      let n := (N_of_ascii a * 65536 + N_of_ascii b * 256)%N in
      String (b64_digit (n / 262144))
        (String (b64_digit (n / 4096))
           (String (b64_digit (n / 64)) "="))
  | String a (String b (String c rest)) =>
      let n := (N_of_ascii a * 65536 + N_of_ascii b * 256
                + N_of_ascii c)%N in
      String (b64_digit (n / 262144))
        (String (b64_digit (n / 4096))
           (String (b64_digit (n / 64))
              (String (b64_digit n) (sample_b64encode rest))))
  end.

End RestoreMain.

(* ================================================================= *)
(** ** Properties of the payload builder *)

Module RestoreProofs.

Import TriggerScheduledRestore RestoreSpec.

(** *** Dictionaries *)

Lemma dict_get_set_same (d : dict) (k : string) (v : value) :
  dict_get (dict_set d k v) k = Some v.
Proof.
  induction d as [|[k' v'] d IH]; simpl.
  - now rewrite String.eqb_refl.
  - destruct (String.eqb k k') eqn:E; simpl; rewrite E; auto.
Qed.

Lemma dict_get_set_other (d : dict) (k k' : string) (v : value) :
  k <> k' -> dict_get (dict_set d k v) k' = dict_get d k'.
Proof.
  intros Hne. induction d as [|[k0 v0] d IH]; simpl.
  - destruct (String.eqb_spec k' k); congruence.
  - destruct (String.eqb_spec k k0) as [->|]; simpl.
    + destruct (String.eqb_spec k' k0); congruence.
    + now rewrite IH.
Qed.

Lemma dict_get_set (d : dict) (k k' : string) (v : value) :
  dict_get (dict_set d k v) k' =
  if String.eqb k' k then Some v else dict_get d k'.
Proof.
  destruct (String.eqb_spec k' k) as [->|Hne].
  - apply dict_get_set_same.
  - apply dict_get_set_other; congruence.
Qed.

Lemma get_or_set (d : dict) (k k' : string) (v dflt : value) :
  get_or (dict_set d k v) k' dflt =
  if String.eqb k' k then v else get_or d k' dflt.
Proof.
  unfold get_or. rewrite dict_get_set. now destruct (String.eqb k' k).
Qed.

Lemma dict_get_in_keys (d : dict) (k : string) (v : value) :
  dict_get d k = Some v -> In k (keys d).
Proof.
  induction d as [|[k' v'] d IH]; simpl; [discriminate|].
  destruct (String.eqb_spec k k') as [->|]; auto.
Qed.

(** *** The overrides *)

Lemma override_destination_get (OV d : dict) (k : string) :
  dict_get (override_destination OV d) k =
  if String.eqb k "destination" && truthy (get_or OV "destination" VNone)
  then Some (get_or OV "destination" VNone)
  else dict_get d k.
Proof.
  unfold override_destination.
  destruct (truthy (get_or OV "destination" VNone)).
  - rewrite dict_get_set, andb_true_r. reflexivity.
  - now rewrite andb_false_r.
Qed.

Lemma override_flag_get (OV d : dict) (f k : string) :
  dict_get (override_flag OV d f) k =
  if String.eqb k f && is_not_None (get_or OV f VNone)
  then Some (get_or OV f VNone)
  else dict_get d k.
Proof.
  unfold override_flag.
  destruct (is_not_None (get_or OV f VNone)).
  - rewrite dict_get_set, andb_true_r. reflexivity.
  - now rewrite andb_false_r.
Qed.

(** The merged options, key by key: a configured override wins, any
    other key reads as in the schedule's own options. *)
Lemma apply_overrides_get (OV d : dict) (k : string) :
  dict_get (apply_overrides OV d) k =
  if configured OV k then Some (get_or OV k VNone) else dict_get d k.
Proof.
  unfold apply_overrides, configured, FLAG_KEYS. cbn [fold_left existsb].
  rewrite !override_flag_get, override_destination_get.
  destruct (String.eqb_spec k "restoreACLsType") as [->|H1];
    [cbn; destruct (is_not_None _); reflexivity|].
  destruct (String.eqb_spec k "overwriteFiles") as [->|H2];
    [cbn; destruct (is_not_None _); reflexivity|].
  destruct (String.eqb_spec k "destination") as [->|H3];
    [cbn; destruct (truthy _); reflexivity|].
  reflexivity.
Qed.

(** The sanity check asks for a missing destination and for a restore
    that is not in place; the heuristic calls every restore without a
    destination in place, so the two never hold together. *)
Lemma destination_check_never_fires (merged : dict) :
  negb (truthy (get_or merged "destination" (VDict []))) &&
  negb (is_in_place_restore merged) = false.
Proof.
  unfold is_in_place_restore, get_or.
  destruct (dict_get merged "destination") as [v|]; cbn.
  - now destruct (truthy v).
  - reflexivity.
Qed.

(** *** The builder, step by step *)

Lemma build_restore_payload_eq (OV : dict) (props : value) :
  build_restore_payload OV props =
  (ti <- py_get props "taskInfo" (VDict []) ;;
   associations <- py_get ti "associations" (VList []) ;;
   if negb (truthy associations) then Raise (RuntimeError MSG_NO_ASSOCIATIONS)
   else
     copied <- schedule_restore_opts props ;;
     normalized <- normalize_associations associations ;;
     Ret (task_envelope normalized (apply_overrides OV copied))).
Proof.
  unfold build_restore_payload, schedule_restore_opts.
  destruct (py_get props "taskInfo" (VDict [])) as [ti| |]; cbn; auto.
  destruct (py_get ti "associations" (VList [])) as [a| |] eqn:Ea; cbn; auto.
  destruct (py_get ti "subTasks" (VList [])) as [s| |] eqn:Es; cbn.
  - destruct (truthy a); cbn; auto.
    destruct (py_iter s) as [items| |]; cbn; auto.
    destruct (find_restore_opts items) as [ro| |]; cbn; auto.
    destruct (py_dict ro) as [copied| |]; cbn; auto.
    now rewrite destination_check_never_fires.
  - destruct ti; cbn in Ea, Es; discriminate.
  - destruct ti; cbn in Ea, Es; discriminate.
Qed.

Lemma payload_restore_options_envelope (normalized : value) (merged : dict) :
  payload_restore_options (task_envelope normalized merged) = Some merged.
Proof. reflexivity. Qed.

Lemma payload_associations_envelope (normalized : value) (merged : dict) :
  payload_associations (task_envelope normalized merged) = Some normalized.
Proof. reflexivity. Qed.

(** A returned payload is the envelope around the normalized
    associations and the overrides applied to the schedule's options. *)
Lemma build_restore_payload_ret (OV : dict) (props payload : value) :
  build_restore_payload OV props = Ret payload ->
  exists copied normalized,
    schedule_restore_opts props = Ret copied /\
    payload = task_envelope normalized (apply_overrides OV copied).
Proof.
  rewrite build_restore_payload_eq.
  destruct (py_get props "taskInfo" (VDict [])) as [ti| |]; cbn; try discriminate.
  destruct (py_get ti "associations" (VList [])) as [a| |]; cbn; try discriminate.
  destruct (truthy a); cbn; try discriminate.
  destruct (schedule_restore_opts props) as [copied| |]; cbn; try discriminate.
  destruct (normalize_associations a) as [n| |]; cbn; try discriminate.
  intros [= <-]. eauto.
Qed.

(** *** Association normalization *)

Lemma normalize_loop_dicts (l : list value) :
  Forall (fun a => is_dict a = true) l ->
  normalize_loop l = Ret (map normalized_value l).
Proof.
  induction 1 as [|a l Ha _ IH]; [reflexivity|].
  destruct a; try discriminate.
  cbn [normalize_loop]. rewrite IH. reflexivity.
Qed.

Lemma normalized_entry_get (a : dict) (k : string) :
  dict_get (map (fun f => (f, get_or a f VNone)) ASSOCIATION_FIELDS) k =
  if existsb (String.eqb k) ASSOCIATION_FIELDS
  then Some (get_or a k VNone) else None.
Proof.
  unfold ASSOCIATION_FIELDS. cbn [map dict_get existsb].
  repeat (match goal with
          | |- context [String.eqb k ?c] =>
              destruct (String.eqb_spec k c) as [->|]; cbn [orb]; [reflexivity|]
          end).
  reflexivity.
Qed.

(** **** Claim C4
    For every list of association objects, [normalize_associations]
    returns a list of the same length in the same order; the entry at
    each position has exactly the fields of the allow-list (clientName,
    appName, instanceId, backupsetId, subclientId), so any other field
    of the input entry is absent from it, and each allow-listed field
    carries the value the input entry has for it ([None] when the input
    entry lacks the field). *)
Theorem C4_normalize_associations (l : list value) :
  Forall (fun a => is_dict a = true) l ->
  exists out,
    normalize_associations (VList l) = Ret (VList out) /\
    List.length out = List.length l /\
    forall i a, nth_error l i = Some (VDict a) ->
      exists o,
        nth_error out i = Some (VDict o) /\
        keys o = ASSOCIATION_FIELDS /\
        forall k, dict_get o k =
                  if existsb (String.eqb k) ASSOCIATION_FIELDS
                  then Some (get_or a k VNone) else None.
Proof.
  intros Hl. exists (map normalized_value l).
  unfold normalize_associations. cbn [py_iter bind].
  rewrite (normalize_loop_dicts l Hl). cbn [bind].
  split; [reflexivity|]. split; [apply length_map|].
  intros i a Hi.
  exists (map (fun k => (k, get_or a k VNone)) ASSOCIATION_FIELDS).
  split; [|split].
  - rewrite nth_error_map, Hi. reflexivity.
  - reflexivity.
  - apply normalized_entry_get.
Qed.

Lemma C4_normalize_associations_witness :
  exists out,
    normalize_associations (VList [sample_association; VDict []]) =
      Ret (VList out) /\
    List.length out = 2%nat /\
    nth_error out 0 =
      Some (VDict [("clientName", VStr "fs01"); ("appName", VStr "File System");
                   ("instanceId", VInt 1); ("backupsetId", VInt 7);
                   ("subclientId", VInt 42)]).
Proof.
  destruct (C4_normalize_associations [sample_association; VDict []])
    as (out & Hrun & Hlen & _).
  - repeat constructor.
  - exists out. split; [exact Hrun|]. split; [exact Hlen|].
    cbv in Hrun. injection Hrun as <-. reflexivity.
Defined.

(** *** Failure modes *)

(** **** Claim C6
    For every schedule-properties document whose associations list is
    missing or empty, [build_restore_payload] raises the fatal
    [RuntimeError] and returns no payload. *)
Theorem C6_no_associations_raises (OV p ti : dict) :
  get_or p "taskInfo" (VDict []) = VDict ti ->
  truthy (get_or ti "associations" (VList [])) = false ->
  build_restore_payload OV (VDict p) = Raise (RuntimeError MSG_NO_ASSOCIATIONS).
Proof.
  intros Hti Ha. rewrite build_restore_payload_eq.
  cbn [py_get bind]. rewrite Hti. cbn [py_get bind]. now rewrite Ha.
Qed.

Lemma C6_no_associations_raises_witness :
  build_restore_payload OVERRIDES_shipped
    (VDict [("taskInfo", VDict [("subTasks", VList [sample_restore_subtask])])]) =
    Raise (RuntimeError MSG_NO_ASSOCIATIONS) /\
  build_restore_payload OVERRIDES_shipped
    (VDict [("taskInfo", VDict [("associations", VList []);
                                ("subTasks", VList [sample_restore_subtask])])]) =
    Raise (RuntimeError MSG_NO_ASSOCIATIONS).
Proof.
  split.
  - apply (C6_no_associations_raises OVERRIDES_shipped _
             [("subTasks", VList [sample_restore_subtask])]); reflexivity.
  - apply (C6_no_associations_raises OVERRIDES_shipped _
             [("associations", VList []);
              ("subTasks", VList [sample_restore_subtask])]); reflexivity.
Defined.

Lemma normalize_associations_dicts (l : list value) :
  Forall (fun a => is_dict a = true) l ->
  normalize_associations (VList l) = Ret (VList (map normalized_value l)).
Proof.
  intros Hl. unfold normalize_associations. cbn [py_iter bind].
  now rewrite (normalize_loop_dicts l Hl).
Qed.

(** Claim C1, as the specification words it, fails: a schedule with
    associations, no destination in its restore options and no
    destination override gets a payload, not an error. *)
Lemma C1_counterexample :
  exists ro payload,
    get_or (sample_task_info [sample_restore_subtask]) "associations" (VList [])
      = VList [sample_association] /\
    schedule_restore_opts (VDict (sample_props [sample_restore_subtask])) =
      Ret ro /\
    dict_get ro "destination" = None /\
    dict_get OVERRIDES_no_destination "destination" = None /\
    dict_get (apply_overrides OVERRIDES_no_destination ro) "destination" = None /\
    build_restore_payload OVERRIDES_no_destination
      (VDict (sample_props [sample_restore_subtask])) = Ret payload /\
    forall e, build_restore_payload OVERRIDES_no_destination
                (VDict (sample_props [sample_restore_subtask])) <> Raise e.
Proof.
  eexists. eexists.
  split; [reflexivity|].
  split; [reflexivity|].
  split; [reflexivity|].
  split; [reflexivity|].
  split; [reflexivity|].
  split; [vm_compute; reflexivity|].
  intros e. vm_compute. discriminate.
Qed.

(** **** Claim C1 (amended)
    For every schedule-properties document with a non-empty list of
    association objects whose restore options carry no destination (the
    block is absent or empty), and with no destination override
    configured, [build_restore_payload] judges the restore in place and
    returns a payload instead of raising the configuration error; the
    merged restore options of that payload still have no destination. *)
Theorem C1_missing_destination_is_in_place
  (OV p ti ro : dict) (a : value) (assocs : list value) :
  get_or p "taskInfo" (VDict []) = VDict ti ->
  get_or ti "associations" (VList []) = VList (a :: assocs) ->
  Forall (fun x => is_dict x = true) (a :: assocs) ->
  schedule_restore_opts (VDict p) = Ret ro ->
  truthy (get_or ro "destination" VNone) = false ->
  truthy (get_or OV "destination" VNone) = false ->
  exists payload merged,
    build_restore_payload OV (VDict p) = Ret payload /\
    payload_restore_options payload = Some merged /\
    truthy (get_or merged "destination" VNone) = false /\
    is_in_place_restore merged = true.
Proof.
  intros Hti Ha Hd Hro Hnd Hov.
  exists (task_envelope (VList (map normalized_value (a :: assocs)))
            (apply_overrides OV ro)), (apply_overrides OV ro).
  assert (Hm : truthy (get_or (apply_overrides OV ro) "destination" VNone) = false).
  { unfold get_or at 1. rewrite apply_overrides_get.
    unfold configured. rewrite Hov. cbn. exact Hnd. }
  split; [|split; [reflexivity|split; [exact Hm|]]].
  - rewrite build_restore_payload_eq. cbn [py_get bind].
    rewrite Hti. cbn [py_get bind]. rewrite Ha. cbn [truthy negb].
    rewrite Hro. cbn [bind].
    now rewrite (normalize_associations_dicts _ Hd).
  - unfold is_in_place_restore. now rewrite Hm.
Qed.

Lemma C1_missing_destination_is_in_place_witness :
  exists payload merged,
    build_restore_payload OVERRIDES_no_destination
      (VDict (sample_props [sample_restore_subtask])) = Ret payload /\
    payload_restore_options payload = Some merged /\
    truthy (get_or merged "destination" VNone) = false /\
    is_in_place_restore merged = true.
Proof.
  eapply (C1_missing_destination_is_in_place OVERRIDES_no_destination
            (sample_props [sample_restore_subtask])
            (sample_task_info [sample_restore_subtask])).
  - reflexivity.
  - reflexivity.
  - repeat constructor.
  - reflexivity.
  - reflexivity.
  - reflexivity.
Defined.

(** *** Merging the overrides *)

Lemma configured_present (OV : dict) (k : string) :
  configured OV k = true -> dict_get OV k = Some (get_or OV k VNone).
Proof.
  unfold configured, get_or. intros H.
  apply orb_true_iff in H as [H|H]; apply andb_true_iff in H as [Hk H].
  - apply String.eqb_eq in Hk. subst k.
    destruct (dict_get OV "destination"); [reflexivity|discriminate].
  - destruct (dict_get OV k); [reflexivity|discriminate].
Qed.

(** **** Claim C3
    Whenever [build_restore_payload] returns a payload, the merged
    restore options inside it contain every configured override key
    (destination, overwriteFiles, restoreACLsType) with the override's
    value, whatever the schedule defines for that key, and every other
    key reads exactly as in the schedule's own restore options. *)
Theorem C3_overrides_take_precedence (OV : dict) (props payload : value) :
  build_restore_payload OV props = Ret payload ->
  exists schedule_opts merged,
    schedule_restore_opts props = Ret schedule_opts /\
    payload_restore_options payload = Some merged /\
    (forall k, configured OV k = true ->
       exists v, dict_get OV k = Some v /\
                 dict_get merged k = Some v /\ In k (keys merged)) /\
    (forall k, configured OV k = false ->
       dict_get merged k = dict_get schedule_opts k).
Proof.
  intros Hb. apply build_restore_payload_ret in Hb as (copied & n & Hs & ->).
  exists copied, (apply_overrides OV copied).
  split; [exact Hs|]. split; [reflexivity|]. split.
  - intros k Hk. exists (get_or OV k VNone).
    assert (Hg : dict_get (apply_overrides OV copied) k = Some (get_or OV k VNone))
      by (rewrite apply_overrides_get, Hk; reflexivity).
    split; [now apply configured_present|].
    split; [exact Hg|]. eapply dict_get_in_keys; exact Hg.
  - intros k Hk. now rewrite apply_overrides_get, Hk.
Qed.

Lemma C3_overrides_take_precedence_witness :
  exists schedule_opts merged,
    schedule_restore_opts (VDict (sample_props [sample_restore_subtask])) =
      Ret schedule_opts /\
    dict_get schedule_opts "overwriteFiles" = Some (VBool false) /\
    dict_get merged "overwriteFiles" = Some (VBool true) /\
    dict_get merged "restoreACLsType" = Some (VStr "ACL_DATA") /\
    dict_get merged "destination" = dict_get OVERRIDES_shipped "destination" /\
    dict_get merged "browseOption" = dict_get schedule_opts "browseOption".
Proof.
  destruct (C3_overrides_take_precedence OVERRIDES_shipped
              (VDict (sample_props [sample_restore_subtask]))
              (task_envelope
                 (VList [normalized_value sample_association])
                 (apply_overrides OVERRIDES_shipped
                    [("overwriteFiles", VBool false);
                     ("browseOption", VDict [("commCellId", VInt 2)])])))
    as (so & merged & Hso & Hm & Hov & Hkeep).
  - reflexivity.
  - exists so, merged. split; [exact Hso|].
    cbv in Hso. injection Hso as <-.
    cbv in Hm. injection Hm as <-.
    repeat split; reflexivity.
Defined.

(** *** Locating the RESTORE subtask *)

Lemma find_restore_opts_skips (before rest : list value) :
  Forall (fun x => subtask_is_restore x = Some false) before ->
  find_restore_opts (before ++ rest) = find_restore_opts rest.
Proof.
  induction 1 as [|x before Hx _ IH]; [reflexivity|].
  cbn [app find_restore_opts].
  unfold subtask_is_restore in Hx.
  destruct x as [| | | | | |d]; try discriminate.
  cbn [py_get bind].
  destruct (get_or d "subTask" (VDict [])) as [| | | | | |s]; try discriminate.
  cbn [py_get bind]. injection Hx as Hx.
  apply orb_false_iff in Hx as [H1 H2].
  rewrite H1. cbn [py_get bind]. rewrite H2. exact IH.
Qed.

Lemma find_restore_opts_hit (st : value) (rest : list value) :
  subtask_is_restore st = Some true ->
  find_restore_opts (st :: rest) =
  (options <- py_get st "options" (VDict []) ;;
   py_get options "restoreOptions" (VDict [])).
Proof.
  unfold subtask_is_restore. intros Hx.
  destruct st as [| | | | | |d]; try discriminate.
  cbn [find_restore_opts py_get bind].
  destruct (get_or d "subTask" (VDict [])) as [| | | | | |s]; try discriminate.
  cbn [py_get bind]. injection Hx as Hx.
  destruct (eq_str (get_or s "operationType" VNone) "RESTORE"); cbn [bind].
  - reflexivity.
  - cbn [orb] in Hx. rewrite Hx. reflexivity.
Qed.

Lemma find_restore_opts_none (l : list value) :
  Forall (fun x => subtask_is_restore x = Some false) l ->
  find_restore_opts l = Ret (VDict []).
Proof.
  intros H. rewrite <- (app_nil_r l). now rewrite find_restore_opts_skips.
Qed.

Lemma schedule_restore_opts_with_sub_tasks (p ti : dict) (l : list value) :
  schedule_restore_opts (with_sub_tasks p ti l) =
  (restore_opts <- find_restore_opts l ;; py_dict restore_opts).
Proof.
  unfold schedule_restore_opts, with_sub_tasks. cbn [py_get bind].
  rewrite get_or_set. cbn. rewrite get_or_set. reflexivity.
Qed.

Lemma build_with_sub_tasks (OV p ti : dict) (l : list value) :
  build_restore_payload OV (with_sub_tasks p ti l) =
  (let associations := get_or ti "associations" (VList []) in
   if negb (truthy associations) then Raise (RuntimeError MSG_NO_ASSOCIATIONS)
   else
     copied <- (restore_opts <- find_restore_opts l ;; py_dict restore_opts) ;;
     normalized <- normalize_associations associations ;;
     Ret (task_envelope normalized (apply_overrides OV copied))).
Proof.
  rewrite build_restore_payload_eq, schedule_restore_opts_with_sub_tasks.
  unfold with_sub_tasks. cbn [py_get bind].
  rewrite get_or_set. cbn. rewrite get_or_set. reflexivity.
Qed.

Lemma restore_block_of_hit (st : value) (rest : list value) :
  subtask_is_restore st = Some true ->
  (restore_opts <- find_restore_opts (st :: rest) ;; py_dict restore_opts) =
  restore_block st.
Proof.
  intros Hst. rewrite (find_restore_opts_hit _ _ Hst). unfold restore_block.
  destruct (py_get st "options" (VDict [])); reflexivity.
Qed.

(** With a RESTORE subtask [st] first among the subtasks, the builder
    checks the associations and then builds from the block of [st]. *)
Lemma build_from_first_restore
  (OV p ti : dict) (before : list value) (st : value) (later : list value) :
  Forall (fun x => subtask_is_restore x = Some false) before ->
  subtask_is_restore st = Some true ->
  build_restore_payload OV (with_sub_tasks p ti (before ++ st :: later)) =
  (let associations := get_or ti "associations" (VList []) in
   if negb (truthy associations) then Raise (RuntimeError MSG_NO_ASSOCIATIONS)
   else
     block <- restore_block st ;;
     normalized <- normalize_associations associations ;;
     Ret (task_envelope normalized (apply_overrides OV block))).
Proof.
  intros Hb Hst. rewrite build_with_sub_tasks.
  rewrite (find_restore_opts_skips _ _ Hb).
  now rewrite (restore_block_of_hit st later Hst).
Qed.

(** **** Claim C5
    For every schedule-properties document with a subtask whose
    operation type or subtask type is "RESTORE", the payload
    [build_restore_payload] returns is built from the restore-options
    block of the first such subtask in list order: its merged options
    read, key by key, as the applied override or else as that block;
    with a non-empty list of association objects and a block that is an
    object (or absent) a payload is returned; and the result is the one
    the builder gives when that subtask is the only one, so that no
    other subtask, earlier or later, contributes. *)
Theorem C5_first_restore_subtask
  (OV p ti : dict) (before : list value) (st : value) (later : list value) :
  Forall (fun x => subtask_is_restore x = Some false) before ->
  subtask_is_restore st = Some true ->
  (forall payload,
     build_restore_payload OV (with_sub_tasks p ti (before ++ st :: later)) =
       Ret payload ->
     exists block merged,
       restore_block st = Ret block /\
       payload_restore_options payload = Some merged /\
       forall k, dict_get merged k =
                 if configured OV k then Some (get_or OV k VNone)
                 else dict_get block k) /\
  (forall a assocs block,
     get_or ti "associations" (VList []) = VList (a :: assocs) ->
     Forall (fun x => is_dict x = true) (a :: assocs) ->
     restore_block st = Ret block ->
     exists payload,
       build_restore_payload OV (with_sub_tasks p ti (before ++ st :: later)) =
         Ret payload) /\
  build_restore_payload OV (with_sub_tasks p ti (before ++ st :: later)) =
    build_restore_payload OV (with_sub_tasks p ti [st]).
Proof.
  intros Hb Hst.
  rewrite (build_from_first_restore OV p ti before st later Hb Hst).
  pose proof (build_from_first_restore OV p ti [] st [] (Forall_nil _) Hst)
    as Hone.
  cbn [app] in Hone. rewrite Hone.
  split; [|split; [|reflexivity]].
  - intros payload. cbv zeta.
    destruct (negb (truthy (get_or ti "associations" (VList []))));
      [discriminate|].
    destruct (restore_block st) as [block| |]; cbn [bind]; try discriminate.
    destruct (normalize_associations (get_or ti "associations" (VList [])))
      as [n| |]; cbn [bind]; try discriminate.
    intros [= <-]. exists block, (apply_overrides OV block).
    split; [reflexivity|]. split; [reflexivity|].
    intros k. apply apply_overrides_get.
  - intros a assocs block Ha Hd Hblock. cbv zeta.
    rewrite Ha, Hblock. cbn [truthy negb bind].
    rewrite (normalize_associations_dicts _ Hd). cbn [bind]. eauto.
Qed.

Lemma C5_first_restore_subtask_witness :
  exists payload merged,
    build_restore_payload OVERRIDES_no_destination
      (with_sub_tasks (sample_props []) (sample_task_info [])
         [sample_backup_subtask; sample_restore_subtask;
          sample_later_restore_subtask]) = Ret payload /\
    payload_restore_options payload = Some merged /\
    dict_get merged "browseOption" = Some (VDict [("commCellId", VInt 2)]) /\
    dict_get merged "overwriteFiles" = Some (VBool true) /\
    dict_get merged "destination" = None.
Proof.
  destruct (C5_first_restore_subtask OVERRIDES_no_destination
              (sample_props []) (sample_task_info [])
              [sample_backup_subtask] sample_restore_subtask
              [sample_later_restore_subtask]) as (Hret & Hex & _).
  - repeat constructor.
  - reflexivity.
  - destruct (Hex sample_association []
                [("overwriteFiles", VBool false);
                 ("browseOption", VDict [("commCellId", VInt 2)])])
      as (payload & Hp).
    + reflexivity.
    + repeat constructor.
    + reflexivity.
    + destruct (Hret payload Hp) as (block & merged & Hblock & Hm & Hk).
      exists payload, merged. split; [exact Hp|]. split; [exact Hm|].
      cbv in Hblock. injection Hblock as <-.
      rewrite !Hk. repeat split; reflexivity.
Defined.

(** **** Claim C9
    For every schedule-properties document with a non-empty list of
    association objects and no RESTORE subtask, and with a destination
    override configured, [build_restore_payload] returns a payload, and
    its restore options hold the configured override fields and
    nothing else. *)
Theorem C9_no_restore_subtask_overrides_alone
  (OV p ti : dict) (a : value) (assocs sub_tasks : list value) :
  get_or p "taskInfo" (VDict []) = VDict ti ->
  get_or ti "associations" (VList []) = VList (a :: assocs) ->
  Forall (fun x => is_dict x = true) (a :: assocs) ->
  get_or ti "subTasks" (VList []) = VList sub_tasks ->
  Forall (fun x => subtask_is_restore x = Some false) sub_tasks ->
  truthy (get_or OV "destination" VNone) = true ->
  exists payload merged,
    build_restore_payload OV (VDict p) = Ret payload /\
    payload_restore_options payload = Some merged /\
    dict_get merged "destination" = dict_get OV "destination" /\
    forall k, dict_get merged k =
              if configured OV k then dict_get OV k else None.
Proof.
  intros Hti Ha Hd Hs Hnone Hov.
  assert (Hro : schedule_restore_opts (VDict p) = Ret []).
  { unfold schedule_restore_opts. cbn [py_get bind]. rewrite Hti.
    cbn [py_get bind]. rewrite Hs. cbn [py_iter bind].
    now rewrite (find_restore_opts_none _ Hnone). }
  assert (Hk : forall k, dict_get (apply_overrides OV []) k =
                         if configured OV k then dict_get OV k else None).
  { intros k. rewrite apply_overrides_get.
    destruct (configured OV k) eqn:E; [|reflexivity].
    symmetry. now apply configured_present. }
  exists (task_envelope (VList (map normalized_value (a :: assocs)))
            (apply_overrides OV [])), (apply_overrides OV []).
  split; [|split; [reflexivity|split; [|exact Hk]]].
  - rewrite build_restore_payload_eq. cbn [py_get bind].
    rewrite Hti. cbn [py_get bind]. rewrite Ha. cbn [truthy negb].
    rewrite Hro. cbn [bind].
    now rewrite (normalize_associations_dicts _ Hd).
  - rewrite Hk. unfold configured. rewrite Hov. reflexivity.
Qed.

Lemma C9_no_restore_subtask_overrides_alone_witness :
  exists payload merged,
    build_restore_payload OVERRIDES_shipped
      (VDict (sample_props [sample_backup_subtask])) = Ret payload /\
    payload_restore_options payload = Some merged /\
    dict_get merged "destination" = dict_get OVERRIDES_shipped "destination" /\
    forall k, dict_get merged k =
              if configured OVERRIDES_shipped k
              then dict_get OVERRIDES_shipped k else None.
Proof.
  eapply (C9_no_restore_subtask_overrides_alone OVERRIDES_shipped
            (sample_props [sample_backup_subtask])
            (sample_task_info [sample_backup_subtask])).
  - reflexivity.
  - reflexivity.
  - repeat constructor.
  - reflexivity.
  - repeat constructor.
  - reflexivity.
Defined.

End RestoreProofs.

(* ================================================================= *)
(** ** Properties of the recent-jobs scan *)

Module ScanProofs.

Import RunSchedules ScanSpec.

(** *** The stable sort *)

Lemma insert_by_time_in (r x : recent_job) (l : list recent_job) :
  In x (insert_by_time r l) <-> x = r \/ In x l.
Proof.
  induction l as [|r' l IH]; cbn.
  - intuition auto.
  - destruct (submitted_of r <=? submitted_of r')%Z; cbn; [|rewrite IH];
      intuition auto.
Qed.

Lemma sort_by_time_in (x : recent_job) (l : list recent_job) :
  In x (sort_by_time l) <-> In x l.
Proof.
  induction l as [|r l IH]; cbn; [tauto|].
  rewrite insert_by_time_in, IH. intuition auto.
Qed.

Lemma insert_by_time_hd (a r : recent_job) (l : list recent_job) :
  (submitted_of a <= submitted_of r)%Z ->
  HdRel Z.le (submitted_of a) (map submitted_of l) ->
  HdRel Z.le (submitted_of a) (map submitted_of (insert_by_time r l)).
Proof.
  intros Har Hl. destruct l as [|r' l]; cbn.
  - now constructor.
  - destruct (submitted_of r <=? submitted_of r')%Z; cbn.
    + now constructor.
    + constructor. now inversion Hl.
Qed.

Lemma insert_by_time_sorted (r : recent_job) (l : list recent_job) :
  Sorted Z.le (map submitted_of l) ->
  Sorted Z.le (map submitted_of (insert_by_time r l)).
Proof.
  induction l as [|r' l IH]; cbn; intros Hs.
  - repeat constructor.
  - destruct (submitted_of r <=? submitted_of r')%Z eqn:E; cbn.
    + constructor; [exact Hs|]. constructor. now apply Z.leb_le.
    + apply Sorted_inv in Hs as [Hs Hhd].
      constructor; [now apply IH|].
      apply insert_by_time_hd; [|exact Hhd].
      apply Z.leb_gt in E. lia.
Qed.

Lemma sort_by_time_sorted (l : list recent_job) :
  Sorted Z.le (map submitted_of (sort_by_time l)).
Proof.
  induction l as [|r l IH]; cbn; [constructor|].
  now apply insert_by_time_sorted.
Qed.

Lemma job_line_times_print (l : list recent_job) :
  job_line_times (print_jobs l) = map submitted_of l.
Proof.
  induction l as [|r l IH]; cbn; [reflexivity|]. now rewrite <- IH.
Qed.

Section Scan.

Variable USER : string.
Variable RECENT_WINDOW_MINUTES : Z.
Variable lower : string -> string.
Variable float_timestamp : spec_float -> option datetime.

Notation scan_entry := (scan_entry USER lower float_timestamp).
Notation scan := (scan USER lower float_timestamp).
Notation list_recent_jobs :=
  (list_recent_jobs USER RECENT_WINDOW_MINUTES lower float_timestamp).
Notation cutoff_of := (cutoff_of RECENT_WINDOW_MINUTES).
Notation in_window := (in_window float_timestamp).
Notation user_contains := (user_contains USER lower).
Notation entry_submitted := (entry_submitted float_timestamp).

(** *** The loop *)

Lemma scan_acc (cutoff : datetime) (items : list (Z * value))
  (recent : list recent_job) :
  scan cutoff items recent = recent ++ scan cutoff items [].
Proof.
  revert recent. induction items as [|[jid details] items IH]; intros recent.
  - cbn. now rewrite app_nil_r.
  - cbn [RunSchedules.scan].
    destruct (scan_entry cutoff jid details) as [r| |]; auto.
    rewrite (IH (recent ++ [r])), (IH ([] ++ [r])).
    now rewrite <- app_assoc.
Qed.

Lemma scan_app (cutoff : datetime) (l1 l2 : list (Z * value)) :
  scan cutoff (l1 ++ l2) [] = scan cutoff l1 [] ++ scan cutoff l2 [].
Proof.
  induction l1 as [|[jid details] l1 IH]; [reflexivity|].
  cbn [app RunSchedules.scan].
  destruct (scan_entry cutoff jid details) as [r| |]; auto.
  rewrite (scan_acc cutoff (l1 ++ l2)), (scan_acc cutoff l1), IH.
  now rewrite app_assoc.
Qed.

Lemma scan_drop (cutoff : datetime) (before later : list (Z * value))
  (jid : Z) (details : value) :
  (forall r, scan_entry cutoff jid details <> Appended r) ->
  scan cutoff (before ++ (jid, details) :: later) [] =
  scan cutoff (before ++ later) [].
Proof.
  intros Hno. rewrite !scan_app. f_equal.
  cbn [RunSchedules.scan].
  destruct (scan_entry cutoff jid details) as [r| |]; auto.
  now destruct (Hno r).
Qed.

Lemma scan_in (cutoff : datetime) (items : list (Z * value)) (r : recent_job) :
  In r (scan cutoff items []) ->
  exists jid details,
    In (jid, details) items /\ scan_entry cutoff jid details = Appended r.
Proof.
  induction items as [|[jid details] items IH]; cbn [RunSchedules.scan].
  - intros [].
  - destruct (scan_entry cutoff jid details) as [r'| |] eqn:E.
    + rewrite scan_acc. cbn. intros [<-|Hin].
      * exists jid, details. split; [now left|exact E].
      * destruct (IH Hin) as (j & d & Hj & Hd).
        exists j, d. split; [now right|exact Hd].
    + intros Hin. destruct (IH Hin) as (j & d & Hj & Hd).
      exists j, d. split; [now right|exact Hd].
    + intros Hin. destruct (IH Hin) as (j & d & Hj & Hd).
      exists j, d. split; [now right|exact Hd].
Qed.

(** *** One entry *)

(** An entry is appended exactly when it is an object submitted inside
    the window whose user field contains the configured user. *)
Lemma scan_entry_appended (cutoff : datetime) (jid : Z) (details : value)
  (r : recent_job) :
  scan_entry cutoff jid details = Appended r ->
  exists d t,
    details = VDict d /\
    entry_submitted d = Some t /\
    in_window cutoff d = true /\
    user_contains d = true /\
    r = (jid, t, get_or d "status" VNone).
Proof.
  unfold RunSchedules.scan_entry, ScanSpec.in_window, ScanSpec.user_contains,
    ScanSpec.entry_submitted.
  destruct details as [| | | | | |d]; try discriminate.
  destruct (is_int_or_float (submit_time_of d)) eqn:En.
  - destruct (fromtimestamp float_timestamp (submit_time_of d)) as [t|] eqn:Et;
      [|discriminate].
    destruct (user_field_of d) as [| | | |u| |] eqn:Eu; try discriminate.
    destruct (cutoff <=? t)%Z eqn:Ec; [|discriminate].
    destruct (contains (lower USER) (lower u)) eqn:Eh; [|discriminate].
    cbn. intros [= <-]. exists d, t.
    rewrite En, Et, Eu. repeat split; assumption.
  - destruct (user_field_of d); discriminate.
Qed.

Lemma scan_entry_rejected (cutoff : datetime) (jid : Z) (d : dict) :
  in_window cutoff d = false \/ user_contains d = false ->
  forall r, scan_entry cutoff jid (VDict d) <> Appended r.
Proof.
  intros H r Hr.
  apply scan_entry_appended in Hr as (d' & t & [= <-] & _ & Hw & Hu & _).
  destruct H; congruence.
Qed.

Lemma list_recent_jobs_drop (now : datetime) (before later : list (Z * value))
  (jid : Z) (details : value) :
  (forall r, scan_entry (cutoff_of now) jid details <> Appended r) ->
  list_recent_jobs now (Some (before ++ (jid, details) :: later)) =
  list_recent_jobs now (Some (before ++ later)).
Proof.
  intros Hno. unfold RunSchedules.list_recent_jobs.
  now rewrite (scan_drop _ _ _ _ _ Hno).
Qed.

Lemma list_recent_jobs_line (now : datetime) (items : list (Z * value))
  (jid : Z) (t : datetime) (status : value) :
  In (JobLine jid t status) (list_recent_jobs now (Some items)) ->
  In (jid, t, status) (scan (cutoff_of now) items []).
Proof.
  unfold RunSchedules.list_recent_jobs.
  destruct (scan (cutoff_of now) items []) as [|r0 recent] eqn:E.
  - cbn. intros [H|[]]. discriminate.
  - intros [H|H]; [discriminate|].
    unfold print_jobs in H.
    apply in_map_iff in H as ([[j t'] s] & Heq & Hin).
    cbn in Heq. injection Heq as -> -> ->.
    exact (proj1 (sort_by_time_in _ _) Hin).
Qed.

(** *** The claims on the scan *)

(** **** Claim C2 (amended)
    For every job list and every job entry in it, the recent-jobs scan
    leaves the entry out of its output whenever its submit time
    ([submitTime], or [startTime] when that is absent or falsy) is
    earlier than the cutoff, the clock reading less
    RECENT_WINDOW_MINUTES, or the user field ([userName], else [user]),
    lower-cased, does not contain the lower-cased configured user as a
    substring: the output is the one of the list without the entry.
    Every job line printed comes from an entry submitted at or after
    the cutoff whose user field contains the configured user, compared
    in lower case. *)
Theorem C2_scan_excludes (now : datetime) (before later : list (Z * value))
  (jid : Z) (d : dict) :
  in_window (cutoff_of now) d = false \/ user_contains d = false ->
  list_recent_jobs now (Some (before ++ (jid, VDict d) :: later)) =
    list_recent_jobs now (Some (before ++ later)) /\
  forall jid' t status,
    In (JobLine jid' t status)
       (list_recent_jobs now (Some (before ++ (jid, VDict d) :: later))) ->
    exists d',
      In (jid', VDict d') (before ++ later) /\
      entry_submitted d' = Some t /\
      (cutoff_of now <= t)%Z /\
      user_contains d' = true /\
      status = get_or d' "status" VNone.
Proof.
  intros Hout.
  assert (Heq : list_recent_jobs now (Some (before ++ (jid, VDict d) :: later)) =
                list_recent_jobs now (Some (before ++ later))).
  { apply list_recent_jobs_drop. now apply scan_entry_rejected. }
  split; [exact Heq|].
  intros jid' t status Hin. rewrite Heq in Hin.
  apply list_recent_jobs_line in Hin.
  apply scan_in in Hin as (j & details & Hj & Hscan).
  apply scan_entry_appended in Hscan as (d' & t' & -> & Hsub & Hw & Hu & Hr).
  injection Hr as <- <- ->.
  exists d'. repeat split; auto.
  unfold ScanSpec.in_window in Hw. rewrite Hsub in Hw. now apply Z.leb_le.
Qed.

(** **** Claim C8
    For every job list, the job lines the recent-jobs scan prints are
    in order of nondecreasing submit time. *)
Theorem C8_printed_in_submit_order (now : datetime)
  (all_jobs : option (list (Z * value))) :
  StronglySorted Z.le (job_line_times (list_recent_jobs now all_jobs)).
Proof.
  unfold RunSchedules.list_recent_jobs.
  destruct (scan _ _ []) as [|r recent].
  - constructor.
  - cbn [job_line_times]. rewrite job_line_times_print.
    apply Sorted_StronglySorted.
    + intros x y z. apply Z.le_trans.
    + apply sort_by_time_sorted.
Qed.

(** **** Claim C10
    For every job entry whose submit-time field ([submitTime], or
    [startTime] as fallback) is absent or is not a number, an ISO date
    string for one, the recent-jobs scan leaves the entry out of its
    output whatever its user field: the output is the one of the list
    without the entry. *)
Theorem C10_non_numeric_submit_time_excluded (now : datetime)
  (before later : list (Z * value)) (jid : Z) (d : dict) :
  is_int_or_float (submit_time_of d) = false ->
  list_recent_jobs now (Some (before ++ (jid, VDict d) :: later)) =
  list_recent_jobs now (Some (before ++ later)).
Proof.
  intros Hn. apply list_recent_jobs_drop, scan_entry_rejected. left.
  unfold ScanSpec.in_window, ScanSpec.entry_submitted. now rewrite Hn.
Qed.

End Scan.

(** Claim C2, as the specification words it, fails: an entry whose user
    is not the configured user, compared in lower case, is printed,
    because its user field holds the configured user as a substring. *)
Lemma C2_counterexample :
  user_field_of sample_job_other_user = VStr "Not-<UserName>-2" /\
  ascii_lower "Not-<UserName>-2" <> ascii_lower USER_shipped /\
  In (JobLine 101 1699999990000000%Z (VStr "Running"))
     (list_recent_jobs USER_shipped RECENT_WINDOW_MINUTES_shipped
        ascii_lower exact_float_timestamp sample_now
        (Some [(101%Z, VDict sample_job_other_user)])).
Proof.
  split; [reflexivity|]. split.
  - vm_compute. discriminate.
  - vm_compute. right. left. reflexivity.
Qed.

Lemma C2_scan_excludes_witness :
  list_recent_jobs USER_shipped RECENT_WINDOW_MINUTES_shipped
    ascii_lower exact_float_timestamp sample_now
    (Some [(100%Z, VDict sample_job_mine); (102%Z, VDict sample_job_old)]) =
  [InfoJobsSubmitted "<username>" 3;
   JobLine 100 1699999900000000%Z (VStr "Completed")].
Proof.
  destruct (C2_scan_excludes USER_shipped RECENT_WINDOW_MINUTES_shipped
              ascii_lower exact_float_timestamp sample_now
              [(100%Z, VDict sample_job_mine)] [] 102%Z sample_job_old)
    as [Heq _].
  - left. reflexivity.
  - cbn [app] in Heq. rewrite Heq. reflexivity.
Defined.

Lemma C10_non_numeric_submit_time_excluded_witness :
  list_recent_jobs USER_shipped RECENT_WINDOW_MINUTES_shipped
    ascii_lower exact_float_timestamp sample_now
    (Some [(103%Z, VDict sample_job_iso); (100%Z, VDict sample_job_mine)]) =
  [InfoJobsSubmitted "<username>" 3;
   JobLine 100 1699999900000000%Z (VStr "Completed")].
Proof.
  assert (Heq := C10_non_numeric_submit_time_excluded USER_shipped
             RECENT_WINDOW_MINUTES_shipped ascii_lower exact_float_timestamp
             sample_now [] [(100%Z, VDict sample_job_mine)] 103%Z sample_job_iso
             eq_refl).
  cbn [app] in Heq. rewrite Heq. reflexivity.
Defined.

End ScanProofs.

(* ================================================================= *)
(** ** Properties of policy invocation *)

Module InvocationProofs.

Import RunSchedules ScanSpec.

Section Invocation.

Variable World : Type.
Variable SdkError : Type.
Variable Policy : Type.
Variable JobIds : Type.

Variable SchedulePolicies : World -> res SdkError unit * World.
Variable all_schedule_policies : World -> res SdkError nat * World.
Variable has_policy : string -> World -> res SdkError bool * World.
Variable get : policy_key -> World -> res SdkError Policy * World.
Variable run_now : Policy -> World -> res SdkError JobIds * World.

(** The loop over names goes through the whole list when the lookups
    return, whatever [run_now] does. *)
Lemma names_loop_processes (names : list string) :
  name_lookups_return all_schedule_policies has_policy get ->
  forall w out,
  exists lines w',
    names_loop has_policy get run_now names w out = (Val tt, w', out ++ lines) /\
    NamesProcessed has_policy get run_now names w lines w' /\
    List.length lines = List.length names.
Proof.
  intros (_ & Hhas & Hget).
  induction names as [|name rest IH]; intros w out.
  - exists [], w. cbn. rewrite app_nil_r. repeat split. constructor.
  - cbn [names_loop].
    destruct (Hhas name w) as (b & w1 & Eh). rewrite Eh.
    destruct b.
    + destruct (Hget name w w1 Eh) as (p & w2 & Eg). rewrite Eg.
      destruct (run_now p w2) as [[job_ids|e] w3] eqn:Er.
      * destruct (IH w3 (out ++ [OkName name job_ids])) as (ls & w' & Hl & Hp & Hn).
        exists (OkName name job_ids :: ls), w'.
        rewrite Hl, <- app_assoc. repeat split; cbn; [|lia].
        eapply NP_started; eassumption.
      * destruct (IH w3 (out ++ [ErrorName name e])) as (ls & w' & Hl & Hp & Hn).
        exists (ErrorName name e :: ls), w'.
        rewrite Hl, <- app_assoc. repeat split; cbn; [|lia].
        eapply NP_failed; eassumption.
    + destruct (IH w1 (out ++ [WarnNameNotFound name])) as (ls & w' & Hl & Hp & Hn).
      exists (WarnNameNotFound name :: ls), w'.
      rewrite Hl, <- app_assoc. repeat split; cbn; [|lia].
      eapply NP_absent; eassumption.
Qed.

(** Where the presence test passes and the fetch then raises, the loop
    over names stops there: that call is not in a [try] block. *)
Lemma names_loop_stops_when_get_raises (name : string) (rest : list string)
  (w w1 w2 : World) (e : SdkError) (out : list (line SdkError JobIds)) :
  has_policy name w = (Val true, w1) ->
  get (ByName name) w1 = (Exc e, w2) ->
  names_loop has_policy get run_now (name :: rest) w out = (Exc e, w2, out).
Proof.
  intros Hh Hg. cbn [names_loop]. now rewrite Hh, Hg.
Qed.

(** The loop over task ids goes through the whole list unconditionally:
    both of its SDK calls sit in a [try] block. *)
Lemma task_ids_loop_processes (ids : list Z) :
  forall w out,
  exists lines w',
    task_ids_loop get run_now ids w out = (Val tt, w', out ++ lines) /\
    TaskIdsProcessed get run_now ids w lines w' /\
    List.length lines = List.length ids.
Proof.
  induction ids as [|task_id rest IH]; intros w out.
  - exists [], w. cbn. rewrite app_nil_r. repeat split. constructor.
  - cbn [task_ids_loop].
    destruct (get (ByTaskId task_id) w) as [[p|e] w1] eqn:Eg.
    + destruct (run_now p w1) as [[job_ids|e] w2] eqn:Er.
      * destruct (IH w2 (out ++ [OkTaskId task_id job_ids])) as (ls & w' & Hl & Hp & Hn).
        exists (OkTaskId task_id job_ids :: ls), w'.
        rewrite Hl, <- app_assoc. repeat split; cbn; [|lia].
        eapply TP_started; eassumption.
      * destruct (IH w2 (out ++ [ErrorTaskId task_id e])) as (ls & w' & Hl & Hp & Hn).
        exists (ErrorTaskId task_id e :: ls), w'.
        rewrite Hl, <- app_assoc. repeat split; cbn; [|lia].
        eapply TP_failed; eassumption.
    + destruct (IH w1 (out ++ [WarnTaskIdNotFound task_id])) as (ls & w' & Hl & Hp & Hn).
      exists (WarnTaskIdNotFound task_id :: ls), w'.
      rewrite Hl, <- app_assoc. repeat split; cbn; [|lia].
      eapply TP_absent; eassumption.
Qed.

(** Both runners go through their whole list, in order, when the SDK
    calls outside a [try] block return. By name that takes the
    constructor, the listing, the presence test and the fetch of a
    policy reported present: then an absent policy is skipped with a
    warning, and a [run_now] that raises is logged and the next name is
    looked up and run. By task id it takes the constructor alone: a
    lookup that raises is skipped with a warning and a [run_now] that
    raises is logged, and the next id is looked up and run. One line is
    printed for each item. *)
Theorem batch_processed_when_lookups_return
  (names : list string) (ids : list Z)
  (w : World) (out : list (line SdkError JobIds)) :
  constructor_returns SchedulePolicies ->
  (name_lookups_return all_schedule_policies has_policy get ->
   exists w1 n w2 lines w',
     SchedulePolicies w = (Val tt, w1) /\
     all_schedule_policies w1 = (Val n, w2) /\
     run_by_names SchedulePolicies all_schedule_policies has_policy get
       run_now names w out = (Val tt, w', out ++ InfoFound n :: lines) /\
     NamesProcessed has_policy get run_now names w2 lines w' /\
     List.length lines = List.length names) /\
  (exists w1 lines w',
     SchedulePolicies w = (Val tt, w1) /\
     run_by_task_ids SchedulePolicies get run_now ids w out =
       (Val tt, w', out ++ lines) /\
     TaskIdsProcessed get run_now ids w1 lines w' /\
     List.length lines = List.length ids).
Proof.
  intros Hnew. destruct (Hnew w) as (w1 & E1). split.
  - intros Hlook. destruct Hlook as (Hall & Hrest).
    destruct (Hall w1) as (n & w2 & E2).
    destruct (names_loop_processes names (conj Hall Hrest) w2 (out ++ [InfoFound n]))
      as (ls & w' & Hl & Hp & Hn).
    exists w1, n, w2, ls, w'.
    unfold run_by_names. rewrite E1, E2, Hl, <- app_assoc. auto.
  - destruct (task_ids_loop_processes ids w1 out) as (ls & w' & Hl & Hp & Hn).
    exists w1, ls, w'. unfold run_by_task_ids. rewrite E1, Hl. auto.
Qed.

End Invocation.

Lemma batch_processed_when_lookups_return_witness :
  run_by_names sample_SchedulePolicies sample_all_schedule_policies
    sample_has_policy sample_get sample_run_now
    ["Weekly"; "Missing"; "Nightly"] [] [] =
    (Val tt,
     ["SchedulePolicies"; "all_schedule_policies";
      "has_policy Weekly"; "get Weekly"; "run_now Weekly";
      "has_policy Missing";
      "has_policy Nightly"; "get Nightly"; "run_now Nightly"],
     [InfoFound 2; ErrorName "Weekly" "run failed";
      WarnNameNotFound "Missing"; OkName "Nightly" [9001%Z]]) /\
  run_by_task_ids sample_SchedulePolicies sample_get sample_run_now
    [777%Z; 5%Z; 451%Z] [] [] =
    (Val tt,
     ["SchedulePolicies"; "get Weekly"; "run_now Weekly";
      "get unknown id"; "get Nightly"; "run_now Nightly"],
     [ErrorTaskId 777 "run failed"; WarnTaskIdNotFound 5;
      OkTaskId 451 [9001%Z]]).
Proof.
  destruct (batch_processed_when_lookups_return
              sample_world string string (list Z)
              sample_SchedulePolicies sample_all_schedule_policies
              sample_has_policy sample_get sample_run_now
              ["Weekly"; "Missing"; "Nightly"] [777%Z; 5%Z; 451%Z] [] [])
    as [Hnames Hids].
  - intros w. eexists. reflexivity.
  - destruct Hnames as (w1 & n & w2 & ls & w' & _ & _ & Hrun & _).
    + split; [|split].
      * intros w. eexists. eexists. reflexivity.
      * intros name w. eexists. eexists. reflexivity.
      * intros name w w1 H. unfold sample_has_policy in H.
        injection H as Hb <-. unfold sample_get. rewrite Hb.
        eexists. eexists. reflexivity.
    + destruct Hids as (w1' & ls' & w'' & _ & Hrun' & _).
      split; reflexivity.
Defined.

(** **** Claim C7 (a defect of [run_by_names])
    The claim asks that every item of the list be processed and that a
    failing lookup be skipped with a warning. By name the code does not
    do that when the lookup fails by raising: on a CommCell where
    "Weekly" is reported present and fetching it raises, [run_by_names]
    on Weekly, Nightly ends with that exception after the fetch, prints
    no line for either name and never looks Nightly up. By task id the
    same kind of failure is caught: on 5, 451, where fetching 5 raises,
    [run_by_task_ids] warns about 5 and goes on to run 451. *)
Lemma C7_names_batch_aborts_on_raising_lookup :
  run_by_names sample_SchedulePolicies sample_all_schedule_policies
    sample_has_policy ScanExtraSpec.sample_flaky_get sample_run_now
    ["Weekly"; "Nightly"] [] [] =
    (Exc "connection reset",
     ["SchedulePolicies"; "all_schedule_policies";
      "has_policy Weekly"; "get Weekly"],
     [InfoFound 2]) /\
  run_by_task_ids sample_SchedulePolicies ScanExtraSpec.sample_flaky_get
    sample_run_now [5%Z; 451%Z] [] [] =
    (Val tt,
     ["SchedulePolicies"; "get unknown id"; "get Nightly"; "run_now Nightly"],
     [WarnTaskIdNotFound 5; OkTaskId 451 [9001%Z]]).
Proof. split; reflexivity. Qed.

End InvocationProofs.

(* ================================================================= *)
(** ** More on the payload builder *)

Module RestoreExtras.

Import TriggerScheduledRestore RestoreSpec RestoreExtraSpec RestoreProofs.

(** *** Which errors the builder raises *)

Lemma bind_no_runtime_error {A B : Type} (m : outcome A) (k : A -> outcome B) :
  no_runtime_error m -> (forall a, no_runtime_error (k a)) ->
  no_runtime_error (bind m k).
Proof.
  intros Hm Hk msg. destruct m as [a|e|]; cbn.
  - apply Hk.
  - intros [= ->]. now apply (Hm msg).
  - discriminate.
Qed.

Lemma py_get_no_runtime_error (x : value) (k : string) (dflt : value) :
  no_runtime_error (py_get x k dflt).
Proof. intros msg. destruct x; discriminate. Qed.

Lemma py_iter_no_runtime_error (x : value) : no_runtime_error (py_iter x).
Proof. intros msg. destruct x; discriminate. Qed.

Lemma py_dict_no_runtime_error (x : value) : no_runtime_error (py_dict x).
Proof.
  intros msg. destruct x as [| | | |s|l|d]; try discriminate.
  - cbn. destruct (String.eqb s ""); discriminate.
  - destruct l; discriminate.
Qed.

Lemma find_restore_opts_no_runtime_error (l : list value) :
  no_runtime_error (find_restore_opts l).
Proof.
  induction l as [|st rest IH]; [intros msg; discriminate|].
  cbn [find_restore_opts].
  apply bind_no_runtime_error; [apply py_get_no_runtime_error|]. intros subtask.
  apply bind_no_runtime_error; [apply py_get_no_runtime_error|]. intros op.
  apply bind_no_runtime_error.
  - destruct (eq_str op "RESTORE"); [intros msg; discriminate|].
    apply bind_no_runtime_error; [apply py_get_no_runtime_error|].
    intros x msg. discriminate.
  - intros [|]; [|exact IH].
    apply bind_no_runtime_error; [apply py_get_no_runtime_error|].
    intros o. apply py_get_no_runtime_error.
Qed.

Lemma normalize_loop_no_runtime_error (l : list value) :
  no_runtime_error (normalize_loop l).
Proof.
  induction l as [|a rest IH]; [intros msg; discriminate|].
  cbn [normalize_loop].
  apply bind_no_runtime_error.
  - unfold normalize_association.
    repeat (apply bind_no_runtime_error; [apply py_get_no_runtime_error|intros ?]).
    intros msg. discriminate.
  - intros a'. apply bind_no_runtime_error; [exact IH|].
    intros r msg. discriminate.
Qed.

Lemma schedule_restore_opts_no_runtime_error (props : value) :
  no_runtime_error (schedule_restore_opts props).
Proof.
  unfold schedule_restore_opts.
  apply bind_no_runtime_error; [apply py_get_no_runtime_error|]. intros ti.
  apply bind_no_runtime_error; [apply py_get_no_runtime_error|]. intros st.
  apply bind_no_runtime_error; [apply py_iter_no_runtime_error|]. intros items.
  apply bind_no_runtime_error; [apply find_restore_opts_no_runtime_error|].
  intros ro. apply py_dict_no_runtime_error.
Qed.

Lemma normalize_associations_no_runtime_error (a : value) :
  no_runtime_error (normalize_associations a).
Proof.
  unfold normalize_associations.
  apply bind_no_runtime_error; [apply py_iter_no_runtime_error|]. intros items.
  apply bind_no_runtime_error; [apply normalize_loop_no_runtime_error|].
  intros out msg. discriminate.
Qed.

(** The one [RuntimeError] the builder ever raises is the one for
    missing associations; the destination error is never raised,
    whatever the document and the overrides. *)
Theorem only_runtime_error_is_no_associations
  (OV : dict) (props : value) (msg : string) :
  build_restore_payload OV props = Raise (RuntimeError msg) ->
  msg = MSG_NO_ASSOCIATIONS /\ msg <> MSG_NO_DESTINATION /\
  exists associations,
    schedule_associations props = Ret associations /\
    truthy associations = false.
Proof.
  rewrite build_restore_payload_eq. unfold schedule_associations.
  destruct (py_get props "taskInfo" (VDict [])) as [ti| |] eqn:Eti; cbn [bind];
    [|intros [= ->]; now destruct (py_get_no_runtime_error _ _ _ msg Eti)
     |discriminate].
  destruct (py_get ti "associations" (VList [])) as [a| |] eqn:Ea; cbn [bind];
    [|intros [= ->]; now destruct (py_get_no_runtime_error _ _ _ msg Ea)
     |discriminate].
  destruct (truthy a) eqn:Et; cbn [negb].
  - intros H. exfalso. revert H.
    apply bind_no_runtime_error; [apply schedule_restore_opts_no_runtime_error|].
    intros copied.
    apply bind_no_runtime_error; [apply normalize_associations_no_runtime_error|].
    intros n m. discriminate.
  - intros [= <-]. split; [reflexivity|]. split; [discriminate|].
    exists a. auto.
Qed.

Lemma only_runtime_error_is_no_associations_witness :
  MSG_NO_ASSOCIATIONS <> MSG_NO_DESTINATION /\
  exists associations,
    schedule_associations (VDict [("taskInfo", VDict [("associations", VList [])])]) =
      Ret associations /\
    truthy associations = false.
Proof.
  destruct (only_runtime_error_is_no_associations OVERRIDES_shipped
              (VDict [("taskInfo", VDict [("associations", VList [])])])
              MSG_NO_ASSOCIATIONS eq_refl) as (_ & Hne & Hex).
  split; [exact Hne | exact Hex].
Defined.

(** *** Normalization: errors and a second pass *)

(** An association that is not an object makes the whole normalization
    fail with [AttributeError]; no partial list comes back. *)
Theorem normalize_associations_rejects_non_object
  (good : list value) (bad : value) (rest : list value) :
  Forall (fun a => is_dict a = true) good ->
  is_dict bad = false ->
  normalize_associations (VList (good ++ bad :: rest)) = Raise AttributeError.
Proof.
  intros Hgood Hbad. unfold normalize_associations. cbn [py_iter bind].
  assert (H : normalize_loop (good ++ bad :: rest) = Raise AttributeError).
  { induction Hgood as [|a good Ha _ IH]; cbn [app normalize_loop].
    - destruct bad; try reflexivity. discriminate.
    - destruct a; try discriminate. rewrite IH. reflexivity. }
  now rewrite H.
Qed.

Lemma normalize_associations_rejects_non_object_witness :
  normalize_associations
    (VList [sample_association; VStr "fs02"; sample_association]) =
  Raise AttributeError.
Proof.
  apply (normalize_associations_rejects_non_object
           [sample_association] (VStr "fs02") [sample_association]).
  - repeat constructor.
  - reflexivity.
Defined.

Lemma normalized_value_is_dict (l : list value) :
  Forall (fun a => is_dict a = true) l ->
  Forall (fun a => is_dict a = true) (map normalized_value l).
Proof.
  induction 1 as [|a l Ha _ IH]; cbn; constructor; auto.
  now destruct a.
Qed.

Lemma normalized_value_twice (a : value) :
  is_dict a = true ->
  normalized_value (normalized_value a) = normalized_value a.
Proof. destruct a; try discriminate. reflexivity. Qed.

(** Normalizing an already normalized list changes nothing. *)
Theorem normalize_associations_idempotent (l out : list value) :
  Forall (fun a => is_dict a = true) l ->
  normalize_associations (VList l) = Ret (VList out) ->
  normalize_associations (VList out) = Ret (VList out).
Proof.
  intros Hl. rewrite (normalize_associations_dicts l Hl). intros [= <-].
  rewrite (normalize_associations_dicts _ (normalized_value_is_dict l Hl)).
  rewrite map_map. do 2 f_equal.
  apply map_ext_in. intros a Ha.
  apply normalized_value_twice. rewrite Forall_forall in Hl. now apply Hl.
Qed.

Lemma normalize_associations_idempotent_witness :
  normalize_associations
    (VList [VDict [("clientName", VStr "fs01"); ("appName", VStr "File System");
                   ("instanceId", VInt 1); ("backupsetId", VInt 7);
                   ("subclientId", VInt 42)]]) =
  Ret (VList [VDict [("clientName", VStr "fs01"); ("appName", VStr "File System");
                     ("instanceId", VInt 1); ("backupsetId", VInt 7);
                     ("subclientId", VInt 42)]]).
Proof.
  apply (normalize_associations_idempotent [sample_association]).
  - repeat constructor.
  - reflexivity.
Defined.

(** *** The merge: key order, a second pass, the in-place judgement *)

Lemma keys_dict_set (d : dict) (k : string) (v : value) :
  keys (dict_set d k v) = if has_key d k then keys d else keys d ++ [k].
Proof.
  unfold has_key, keys. induction d as [|[k' v'] d IH]; cbn; [reflexivity|].
  destruct (String.eqb k k'); cbn; [reflexivity|].
  rewrite IH. now destruct (existsb (String.eqb k) (map fst d)).
Qed.

Lemma has_key_dict_set (d : dict) (k k' : string) (v : value) :
  has_key (dict_set d k v) k' = String.eqb k' k || has_key d k'.
Proof.
  unfold has_key. rewrite keys_dict_set. fold (has_key d k).
  destruct (has_key d k) eqn:E.
  - destruct (String.eqb_spec k' k) as [->|]; [|reflexivity].
    unfold has_key in E. now rewrite E.
  - rewrite existsb_app. cbn. rewrite orb_false_r. apply orb_comm.
Qed.

Lemma dict_set_same_value (d : dict) (k : string) (v : value) :
  dict_get d k = Some v -> dict_set d k v = d.
Proof.
  induction d as [|[k' v'] d IH]; cbn; [discriminate|].
  destruct (String.eqb k k'); [now intros [= ->]|].
  intros H. now rewrite IH.
Qed.

(** Merging keeps every key of the schedule's options at its place and
    puts the override keys the schedule lacks after them, in the order
    destination, overwriteFiles, restoreACLsType. *)
Theorem apply_overrides_keys (OV d : dict) :
  keys (apply_overrides OV d) =
  keys d ++ filter (fun k => configured OV k && negb (has_key d k)) OVERRIDE_KEYS.
Proof.
  unfold apply_overrides, OVERRIDE_KEYS, FLAG_KEYS, configured.
  cbn [fold_left filter existsb].
  unfold override_flag, override_destination.
  change (String.eqb "destination" "destination") with true.
  change (String.eqb "destination" "overwriteFiles") with false.
  change (String.eqb "destination" "restoreACLsType") with false.
  change (String.eqb "overwriteFiles" "destination") with false.
  change (String.eqb "overwriteFiles" "overwriteFiles") with true.
  change (String.eqb "restoreACLsType" "destination") with false.
  change (String.eqb "restoreACLsType" "overwriteFiles") with false.
  change (String.eqb "restoreACLsType" "restoreACLsType") with true.
  cbn [andb orb].
  destruct (truthy (get_or OV "destination" VNone));
    destruct (is_not_None (get_or OV "overwriteFiles" VNone));
    destruct (is_not_None (get_or OV "restoreACLsType" VNone));
    cbn [andb orb];
    rewrite ?keys_dict_set, ?has_key_dict_set;
    repeat (rewrite ?keys_dict_set, ?has_key_dict_set;
            match goal with
            | |- context [has_key d ?k] => destruct (has_key d k) eqn:?
            end; cbn);
    rewrite <- ?app_assoc, ?app_nil_r; reflexivity.
Qed.

(** The merged options already hold every configured override, so
    merging once more changes nothing. *)
Theorem apply_overrides_idempotent (OV d : dict) :
  apply_overrides OV (apply_overrides OV d) = apply_overrides OV d.
Proof.
  set (m := apply_overrides OV d).
  assert (Hm : forall k, configured OV k = true ->
                         dict_get m k = Some (get_or OV k VNone)).
  { intros k Hk. unfold m. now rewrite apply_overrides_get, Hk. }
  unfold apply_overrides at 1, FLAG_KEYS. cbn [fold_left].
  assert (H1 : override_destination OV m = m).
  { unfold override_destination.
    destruct (truthy (get_or OV "destination" VNone)) eqn:E; [|reflexivity].
    apply dict_set_same_value, Hm. unfold configured. now rewrite E. }
  assert (H2 : forall f, In f FLAG_KEYS -> override_flag OV m f = m).
  { intros f Hf. unfold override_flag.
    destruct (is_not_None (get_or OV f VNone)) eqn:E; [|reflexivity].
    apply dict_set_same_value, Hm. unfold configured. rewrite E.
    destruct Hf as [<-|[<-|[]]]; reflexivity. }
  rewrite H1, (H2 "overwriteFiles"), (H2 "restoreACLsType");
    cbn; auto.
Qed.

(** With a destination override configured the merged options are never
    judged in place; without one the schedule's own options decide. *)
Theorem is_in_place_after_overrides (OV d : dict) :
  is_in_place_restore (apply_overrides OV d) =
  if truthy (get_or OV "destination" VNone) then false
  else is_in_place_restore d.
Proof.
  unfold is_in_place_restore, get_or at 1 3.
  rewrite apply_overrides_get. unfold configured.
  change (String.eqb "destination" "destination") with true.
  cbn [andb existsb FLAG_KEYS String.eqb].
  change (existsb (String.eqb "destination") FLAG_KEYS) with false.
  cbn [andb orb].
  destruct (truthy (get_or OV "destination" VNone)) eqn:E; cbn [orb].
  - now rewrite E.
  - reflexivity.
Qed.

(** *** Building from a payload *)

Lemma normalize_loop_ret (l out : list value) :
  normalize_loop l = Ret out ->
  Forall (fun a => is_dict a = true) l /\ out = map normalized_value l.
Proof.
  revert out. induction l as [|a l IH]; intros out; cbn [normalize_loop].
  - intros [= <-]. auto.
  - destruct a; try discriminate. cbn [normalize_association py_get bind].
    destruct (normalize_loop l) as [out'| |]; try discriminate.
    cbn [bind]. intros [= <-].
    destruct (IH out' eq_refl) as [Hl ->]. split; [|reflexivity].
    constructor; [reflexivity|exact Hl].
Qed.

Lemma normalize_associations_ret (a n : value) :
  truthy a = true ->
  normalize_associations a = Ret n ->
  exists x l,
    a = VList (x :: l) /\
    Forall (fun v => is_dict v = true) (x :: l) /\
    n = VList (map normalized_value (x :: l)).
Proof.
  intros Ht. unfold normalize_associations.
  destruct a as [| | | |s|l|d]; try discriminate; cbn [py_iter bind].
  - destruct s as [|c s]; [discriminate|]. discriminate.
  - destruct l as [|x l]; [discriminate|].
    destruct (normalize_loop (x :: l)) as [out| |] eqn:E; try discriminate.
    cbn [bind]. intros [= <-].
    apply normalize_loop_ret in E as [Hl ->]. eauto.
  - destruct d as [|[k v] d]; [discriminate|]. discriminate.
Qed.

Lemma schedule_restore_opts_envelope (n : value) (m : dict) :
  schedule_restore_opts (task_envelope n m) = Ret m.
Proof. reflexivity. Qed.

Lemma schedule_associations_envelope (n : value) (m : dict) :
  schedule_associations (task_envelope n m) = Ret n.
Proof. reflexivity. Qed.

Lemma build_restore_payload_envelope (OV : dict) (n : value) (m : dict) :
  build_restore_payload OV (task_envelope n m) =
  if negb (truthy n) then Raise (RuntimeError MSG_NO_ASSOCIATIONS)
  else normalized <- normalize_associations n ;;
       Ret (task_envelope normalized (apply_overrides OV m)).
Proof. rewrite build_restore_payload_eq. reflexivity. Qed.

(** A payload the builder returned is itself a schedule document the
    builder accepts, and building from it returns it unchanged. *)
Theorem build_restore_payload_idempotent (OV : dict) (props payload : value) :
  build_restore_payload OV props = Ret payload ->
  build_restore_payload OV payload = Ret payload.
Proof.
  rewrite build_restore_payload_eq.
  destruct (py_get props "taskInfo" (VDict [])) as [ti| |]; try discriminate.
  cbn [bind].
  destruct (py_get ti "associations" (VList [])) as [a| |]; try discriminate.
  cbn [bind].
  destruct (truthy a) eqn:Ha; try discriminate. cbn [negb].
  destruct (schedule_restore_opts props) as [copied| |]; try discriminate.
  cbn [bind].
  destruct (normalize_associations a) as [n| |] eqn:En; try discriminate.
  cbn [bind]. intros [= <-].
  apply (normalize_associations_ret a n Ha) in En as (x & l & -> & Hl & ->).
  rewrite build_restore_payload_envelope, apply_overrides_idempotent.
  rewrite (normalize_associations_idempotent (x :: l) _ Hl
             (normalize_associations_dicts _ Hl)).
  reflexivity.
Qed.

Lemma build_restore_payload_idempotent_witness :
  exists payload,
    build_restore_payload OVERRIDES_shipped
      (VDict (sample_props [sample_backup_subtask; sample_restore_subtask])) =
      Ret payload /\
    build_restore_payload OVERRIDES_shipped payload = Ret payload.
Proof.
  eexists. split.
  - vm_compute. reflexivity.
  - apply (build_restore_payload_idempotent OVERRIDES_shipped
             (VDict (sample_props [sample_backup_subtask; sample_restore_subtask]))).
    vm_compute. reflexivity.
Defined.

(** *** The overrides and the outcome *)

(** Whether the builder returns, and which exception it raises if it
    does not, never depends on the overrides; neither do the
    associations of the payload. *)
Theorem overrides_do_not_change_outcome (OV OV' : dict) (props : value) :
  (forall e, build_restore_payload OV props = Raise e <->
             build_restore_payload OV' props = Raise e) /\
  (forall payload, build_restore_payload OV props = Ret payload ->
     exists payload',
       build_restore_payload OV' props = Ret payload' /\
       payload_associations payload' = payload_associations payload).
Proof.
  rewrite !build_restore_payload_eq.
  destruct (py_get props "taskInfo" (VDict [])) as [ti| |]; cbn [bind];
    [|split; [tauto|discriminate]|split; [tauto|discriminate]].
  destruct (py_get ti "associations" (VList [])) as [a| |]; cbn [bind];
    [|split; [tauto|discriminate]|split; [tauto|discriminate]].
  destruct (negb (truthy a)); [split; [tauto|discriminate]|].
  destruct (schedule_restore_opts props) as [copied| |]; cbn [bind];
    [|split; [tauto|discriminate]|split; [tauto|discriminate]].
  destruct (normalize_associations a) as [n| |]; cbn [bind];
    [|split; [tauto|discriminate]|split; [tauto|discriminate]].
  split.
  - intros e. split; discriminate.
  - intros payload [= <-]. eexists. split; reflexivity.
Qed.

End RestoreExtras.

(* ================================================================= *)
(** ** More on the recent-jobs scan *)

Module ScanExtras.

Import RunSchedules ScanSpec ScanExtraSpec ScanProofs.

Lemma insert_by_time_length (r : recent_job) (l : list recent_job) :
  List.length (insert_by_time r l) = S (List.length l).
Proof.
  induction l as [|r' l IH]; cbn; [reflexivity|].
  destruct (submitted_of r <=? submitted_of r')%Z; cbn; auto.
Qed.

Lemma sort_by_time_length (l : list recent_job) :
  List.length (sort_by_time l) = List.length l.
Proof.
  unfold sort_by_time. induction l as [|r l IH]; cbn [fold_right]; [reflexivity|].
  now rewrite insert_by_time_length, IH.
Qed.




Section Scan.

Variable USER : string.
Variable RECENT_WINDOW_MINUTES : Z.
Variable lower : string -> string.
Variable float_timestamp : spec_float -> option datetime.

Notation scan_entry := (scan_entry USER lower float_timestamp).
Notation scan := (scan USER lower float_timestamp).
Notation list_recent_jobs :=
  (list_recent_jobs USER RECENT_WINDOW_MINUTES lower float_timestamp).
Notation cutoff_of := (cutoff_of RECENT_WINDOW_MINUTES).
Notation in_window := (in_window float_timestamp).
Notation user_contains := (user_contains USER lower).
Notation entry_submitted := (entry_submitted float_timestamp).
Notation qualifies := (qualifies USER lower float_timestamp).
Notation body_raises := (body_raises float_timestamp).

Lemma scan_entry_accepts (cutoff : datetime) (jid : Z) (d : dict) :
  in_window cutoff d = true -> user_contains d = true ->
  exists t,
    entry_submitted d = Some t /\
    scan_entry cutoff jid (VDict d) = Appended (jid, t, get_or d "status" VNone).
Proof.
  unfold ScanSpec.in_window, ScanSpec.user_contains, ScanSpec.entry_submitted,
    RunSchedules.scan_entry.
  destruct (is_int_or_float (submit_time_of d)); [|discriminate].
  destruct (fromtimestamp float_timestamp (submit_time_of d)) as [t|];
    [|discriminate].
  destruct (user_field_of d) as [| | | |u| |]; try discriminate.
  intros -> ->. exists t. split; reflexivity.
Qed.

Lemma scan_entry_qualifies (cutoff : datetime) (jid : Z) (details : value) :
  match scan_entry cutoff jid details with
  | Appended _ => true
  | _ => false
  end = qualifies cutoff (jid, details).
Proof.
  unfold ScanExtraSpec.qualifies. cbn [snd].
  destruct details as [| | | | | |d]; try reflexivity.
  destruct (in_window cutoff d) eqn:Ew; [destruct (user_contains d) eqn:Eu|].
  - destruct (scan_entry_accepts cutoff jid d Ew Eu) as (t & _ & ->). reflexivity.
  - destruct (scan_entry cutoff jid (VDict d)) as [r| |] eqn:E; try reflexivity.
    now destruct (scan_entry_rejected USER lower float_timestamp cutoff jid d
                    (or_intror Eu) r).
  - destruct (scan_entry cutoff jid (VDict d)) as [r| |] eqn:E; try reflexivity.
    now destruct (scan_entry_rejected USER lower float_timestamp cutoff jid d
                    (or_introl Ew) r).
Qed.

Lemma scan_length (cutoff : datetime) (items : list (Z * value)) :
  List.length (scan cutoff items []) =
  List.length (filter (qualifies cutoff) items).
Proof.
  induction items as [|[jid details] items IH]; [reflexivity|].
  cbn [RunSchedules.scan filter].
  rewrite <- (scan_entry_qualifies cutoff jid details).
  destruct (scan_entry cutoff jid details) as [r| |]; auto.
  rewrite (scan_acc USER lower float_timestamp). cbn. now rewrite IH.
Qed.

(** Every entry submitted inside the window by a user whose name
    contains the configured one is printed, with its status. *)
Theorem qualifying_job_is_printed (now : datetime) (items : list (Z * value))
  (jid : Z) (d : dict) :
  In (jid, VDict d) items ->
  in_window (cutoff_of now) d = true ->
  user_contains d = true ->
  exists t,
    entry_submitted d = Some t /\
    In (JobLine jid t (get_or d "status" VNone))
       (list_recent_jobs now (Some items)).
Proof.
  intros Hin Hw Hu.
  destruct (scan_entry_accepts (cutoff_of now) jid d Hw Hu) as (t & Ht & Hs).
  exists t. split; [exact Ht|].
  apply in_split in Hin as (l1 & l2 & ->).
  assert (Hr : In (jid, t, get_or d "status" VNone)
                  (scan (cutoff_of now) (l1 ++ (jid, VDict d) :: l2) [])).
  { rewrite (scan_app USER lower float_timestamp). apply in_or_app. right.
    cbn [RunSchedules.scan]. rewrite Hs.
    rewrite (scan_acc USER lower float_timestamp). now left. }
  unfold RunSchedules.list_recent_jobs.
  destruct (scan (cutoff_of now) (l1 ++ (jid, VDict d) :: l2) [])
    as [|r0 recent]; [destruct Hr|].
  right. unfold print_jobs.
  apply (in_map (fun r => JobLine (fst (fst r)) (snd (fst r)) (snd r))
           _ (jid, t, get_or d "status" VNone)).
  now apply sort_by_time_in.
Qed.

(** The scan prints one job line for each qualifying entry, and the
    single "no recent jobs" line exactly when there is none. *)
Theorem job_line_count (now : datetime) (items : list (Z * value)) :
  List.length (job_line_times (list_recent_jobs now (Some items))) =
    List.length (filter (qualifies (cutoff_of now)) items) /\
  (filter (qualifies (cutoff_of now)) items = [] <->
   list_recent_jobs now (Some items) =
     [InfoNoRecentJobs USER RECENT_WINDOW_MINUTES]).
Proof.
  pose proof (scan_length (cutoff_of now) items) as Hlen.
  unfold RunSchedules.list_recent_jobs.
  destruct (scan (cutoff_of now) items []) as [|r0 recent].
  - split; [exact Hlen|]. split; [reflexivity|]. intros _.
    destruct (filter _ items); [reflexivity|discriminate].
  - split.
    + cbn [job_line_times]. rewrite job_line_times_print, length_map.
      now rewrite sort_by_time_length.
    + split; [|discriminate]. intros E. rewrite E in Hlen. discriminate.
Qed.


(** An entry the scan cannot read is skipped on its own: the output is
    the one of the job dictionary without it. *)
Theorem unreadable_entry_is_skipped (now : datetime)
  (before later : list (Z * value)) (jid : Z) (details : value) :
  body_raises details = true ->
  list_recent_jobs now (Some (before ++ (jid, details) :: later)) =
  list_recent_jobs now (Some (before ++ later)).
Proof.
  intros Hraise. apply list_recent_jobs_drop. intros r Hr.
  apply scan_entry_appended in Hr as (d & t & -> & Hsub & _ & Hu & _).
  unfold ScanExtraSpec.body_raises in Hraise.
  unfold ScanSpec.entry_submitted in Hsub.
  unfold ScanSpec.user_contains in Hu.
  destruct (is_int_or_float (submit_time_of d)); [|discriminate].
  rewrite Hsub in Hraise.
  destruct (user_field_of d); discriminate.
Qed.

End Scan.

Lemma qualifying_job_is_printed_witness :
  In (JobLine 100 1699999900000000%Z (VStr "Completed"))
     (list_recent_jobs USER_shipped RECENT_WINDOW_MINUTES_shipped
        ascii_lower exact_float_timestamp sample_now
        (Some [(102%Z, VDict sample_job_old); (100%Z, VDict sample_job_mine)])).
Proof.
  destruct (qualifying_job_is_printed USER_shipped RECENT_WINDOW_MINUTES_shipped
              ascii_lower exact_float_timestamp sample_now
              [(102%Z, VDict sample_job_old); (100%Z, VDict sample_job_mine)]
              100%Z sample_job_mine) as (t & Ht & Hin).
  - right. left. reflexivity.
  - reflexivity.
  - reflexivity.
  - vm_compute in Ht. injection Ht as <-. exact Hin.
Defined.

Lemma unreadable_entry_is_skipped_witness :
  list_recent_jobs USER_shipped RECENT_WINDOW_MINUTES_shipped
    ascii_lower exact_float_timestamp sample_now
    (Some [(104%Z, VDict sample_job_millis); (105%Z, VDict sample_job_user_id);
           (106%Z, VStr "n/a"); (100%Z, VDict sample_job_mine)]) =
  [InfoJobsSubmitted "<username>" 3;
   JobLine 100 1699999900000000%Z (VStr "Completed")].
Proof.
  assert (Heq := unreadable_entry_is_skipped USER_shipped
             RECENT_WINDOW_MINUTES_shipped ascii_lower exact_float_timestamp
             sample_now []
             [(105%Z, VDict sample_job_user_id); (106%Z, VStr "n/a");
              (100%Z, VDict sample_job_mine)] 104%Z (VDict sample_job_millis)
             eq_refl).
  cbn [app] in Heq. rewrite Heq. reflexivity.
Defined.

(** Two jobs of one second come out in dictionary order, after the
    earlier job listed last. *)
Example same_time_jobs_example :
  list_recent_jobs USER_shipped RECENT_WINDOW_MINUTES_shipped
    ascii_lower exact_float_timestamp sample_now
    (Some [(201%Z, VDict sample_job_tie_a); (202%Z, VDict sample_job_tie_b);
           (100%Z, VDict sample_job_mine)]) =
  [InfoJobsSubmitted "<username>" 3;
   JobLine 100 1699999900000000%Z (VStr "Completed");
   JobLine 201 1699999950000000%Z (VStr "Running");
   JobLine 202 1699999950000000%Z (VStr "Queued")].
Proof. reflexivity. Qed.

End ScanExtras.

(* ================================================================= *)
(** ** Properties of the restore script's session *)

Module MainProofs.

Import TriggerScheduledRestore RestoreSpec RestoreMain.

Example sample_b64encode_password :
  sample_b64encode "<password>" = "PHBhc3N3b3JkPg==".
Proof. vm_compute. reflexivity. Qed.

Section Session.

Variable World : Type.
Variable NetError : Type.
Variable send : request -> World -> (response + NetError) * World.
Variable USER : string.
Variable PASS : string.
Variable OVERRIDES : dict.
Variable b64encode : string -> string.

Notation login := (login send USER PASS b64encode).
Notation logout := (logout send).
Notation restore_task := (restore_task send OVERRIDES).
Notation tasks_loop := (tasks_loop send OVERRIDES).
Notation main := (main send USER PASS OVERRIDES b64encode).
Notation state := (state World).

(** [login] returns exactly when the server answers the login request
    with a status below 400 or from 600 on and a JSON object whose
    [token] is set and not empty; what it returns is that token. *)
Theorem login_returns_the_token (st st' : state) (token : value) :
  login st = (Done token, st') <->
  exists r d,
    send (PostLogin (login_payload USER PASS b64encode)) (fst st) =
      (inl r, fst st') /\
    snd st' = snd st /\
    (400 <=? status_code r)%Z && (status_code r <? 600)%Z = false /\
    json r = Some (VDict d) /\
    get_or d "token" VNone = token /\
    truthy token = true.
Proof.
  unfold RestoreMain.login, mbind, call, raise_for_status, json_of, lift.
  destruct st as [w out]. cbn [fst snd].
  destruct (send (PostLogin (login_payload USER PASS b64encode)) w)
    as [[r|e] w1] eqn:Es.
  - destruct ((400 <=? status_code r)%Z && (status_code r <? 600)%Z) eqn:Est.
    + split; [discriminate|]. intros (r' & d & [= <- _] & _ & Hst & _).
      congruence.
    + unfold ret at 1. destruct (json r) as [body|] eqn:Ej.
      * unfold ret at 1. destruct body as [| | | | | |d];
          try (split; [discriminate|];
               intros (r' & d' & [= <- _] & _ & _ & Hj & _); congruence).
        cbn [py_get]. unfold ret at 1.
        destruct (truthy (get_or d "token" VNone)) eqn:Et; cbn [negb].
        -- split.
           ++ intros [= <- <-]. exists r, d. cbn. repeat split; assumption.
           ++ intros (r' & d' & [= <- Hw] & Hout & _ & Hj & <- & _).
              assert (d' = d) by congruence. subst d'.
              destruct st' as [w' out']. cbn in Hw, Hout. subst. reflexivity.
        -- split; [discriminate|].
           intros (r' & d' & [= <- _] & _ & _ & Hj & <- & Ht).
           assert (d' = d) by congruence. subst d'. congruence.
      * split; [discriminate|].
        intros (r' & d & [= <- _] & _ & _ & Hj & _). congruence.
  - split; [discriminate|]. intros (r & d & [= ] & _).
Qed.

Lemma tasks_loop_app (token : value) (before rest : list Z) (st st1 : state) :
  tasks_loop token before st = (Done tt, st1) ->
  tasks_loop token (before ++ rest) st = tasks_loop token rest st1.
Proof.
  revert st. induction before as [|task_id before IH]; intros st.
  - cbn. unfold ret. now intros [= <-].
  - cbn [app RestoreMain.tasks_loop]. unfold mbind.
    destruct (restore_task token task_id st) as [[[]|e|] st0]; try discriminate.
    apply IH.
Qed.

(** Once [login] has returned, [main] ends the way the loop over the
    schedules ends, after one logout request sent on the state the loop
    left, whether or not that request fails, and with the "logged out"
    line printed last. *)
Theorem main_logs_out_after_login
  (ids : list Z) (st st1 : state) (token : value) :
  ids <> [] ->
  login (fst st, snd st ++ [InfoLoggingIn]) = (Done token, st1) ->
  main ids st =
  (fst (tasks_loop token ids st1),
   (snd (send (PostLogout token) (fst (snd (tasks_loop token ids st1)))),
    snd (snd (tasks_loop token ids st1)) ++ [InfoLoggedOut])).
Proof.
  intros Hne Hlogin. destruct ids as [|task_id rest]; [congruence|].
  unfold RestoreMain.main. unfold mbind at 1 2. unfold print at 1.
  rewrite Hlogin. unfold try_finally.
  destruct (tasks_loop token (task_id :: rest) st1) as [r [w2 out2]].
  unfold mbind, RestoreMain.logout, call, print. cbn [fst snd].
  destruct (send (PostLogout token) w2) as [[resp|e] w3]; reflexivity.
Qed.

(** A schedule whose turn fails ends the run with that failure: the
    schedules after it are neither read nor submitted, and the session
    is still logged out. *)
Theorem failing_schedule_stops_the_run
  (before : list Z) (task_id : Z) (rest : list Z)
  (st st1 st2 st3 : state) (token : value) (e : failure NetError) :
  login (fst st, snd st ++ [InfoLoggingIn]) = (Done token, st1) ->
  tasks_loop token before st1 = (Done tt, st2) ->
  restore_task token task_id st2 = (Fails e, st3) ->
  main (before ++ task_id :: rest) st =
  (Fails e,
   (snd (send (PostLogout token) (fst st3)), snd st3 ++ [InfoLoggedOut])).
Proof.
  intros Hlogin Hbefore Htask.
  rewrite (main_logs_out_after_login _ st st1 token); [|now destruct before|exact Hlogin].
  rewrite (tasks_loop_app token before (task_id :: rest) st1 st2 Hbefore).
  cbn [RestoreMain.tasks_loop]. unfold mbind at 1 2 3. rewrite Htask. reflexivity.
Qed.

End Session.

Lemma main_logs_out_after_login_witness :
  main sample_send "<username>" "<password>" OVERRIDES_shipped sample_b64encode
    [12%Z] ([], []) =
  (Done tt,
   ([PostLogin (login_payload "<username>" "<password>" sample_b64encode);
     GetSchedules (VStr "t0") 12;
     PostCreateTask (VStr "t0")
       (task_envelope (VList [normalized_value sample_association])
          (apply_overrides OVERRIDES_shipped
             [("overwriteFiles", VBool false);
              ("browseOption", VDict [("commCellId", VInt 2)])]));
     PostLogout (VStr "t0")],
    [InfoLoggingIn; InfoReading 12; InfoSubmitting 12;
     OkSubmitted 12 (VList [VStr "9100"]); InfoLoggedOut])).
Proof.
  exact (main_logs_out_after_login sample_server string sample_send
           "<username>" "<password>" OVERRIDES_shipped sample_b64encode
           [12%Z] ([], [])
           ([PostLogin (login_payload "<username>" "<password>" sample_b64encode)],
            [InfoLoggingIn])
           (VStr "t0")
           (fun H => match H with end) eq_refl).
Defined.

Lemma failing_schedule_stops_the_run_witness :
  main sample_send "<username>" "<password>" OVERRIDES_shipped sample_b64encode
    [12%Z; 13%Z; 14%Z] ([], []) =
  (Fails (PyRaise (RuntimeError MSG_NO_ASSOCIATIONS)),
   ([PostLogin (login_payload "<username>" "<password>" sample_b64encode);
     GetSchedules (VStr "t0") 12;
     PostCreateTask (VStr "t0")
       (task_envelope (VList [normalized_value sample_association])
          (apply_overrides OVERRIDES_shipped
             [("overwriteFiles", VBool false);
              ("browseOption", VDict [("commCellId", VInt 2)])]));
     GetSchedules (VStr "t0") 13;
     PostLogout (VStr "t0")],
    [InfoLoggingIn; InfoReading 12; InfoSubmitting 12;
     OkSubmitted 12 (VList [VStr "9100"]); InfoReading 13; InfoLoggedOut])).
Proof.
  exact (failing_schedule_stops_the_run sample_server string sample_send
           "<username>" "<password>" OVERRIDES_shipped sample_b64encode
           [12%Z] 13%Z [14%Z] ([], [])
           ([PostLogin (login_payload "<username>" "<password>" sample_b64encode)],
            [InfoLoggingIn])
           (snd (tasks_loop sample_send OVERRIDES_shipped (VStr "t0") [12%Z]
                   ([PostLogin (login_payload "<username>" "<password>"
                                  sample_b64encode)],
                    [InfoLoggingIn])))
           (snd (tasks_loop sample_send OVERRIDES_shipped (VStr "t0") [12%Z; 13%Z]
                   ([PostLogin (login_payload "<username>" "<password>"
                                  sample_b64encode)],
                    [InfoLoggingIn])))
           (VStr "t0") (PyRaise (RuntimeError MSG_NO_ASSOCIATIONS))
           eq_refl eq_refl eq_refl).
Defined.

End MainProofs.

(* ================================================================= *)
(** ** More on policy invocation *)

Module InvocationExtras.

Import RunSchedules ScanSpec ScanExtraSpec.

Section Invocation.

Variable World : Type.
Variable SdkError : Type.
Variable Policy : Type.
Variable JobIds : Type.

Variable SchedulePolicies : World -> res SdkError unit * World.
Variable all_schedule_policies : World -> res SdkError nat * World.
Variable has_policy : string -> World -> res SdkError bool * World.
Variable get : policy_key -> World -> res SdkError Policy * World.
Variable run_now : Policy -> World -> res SdkError JobIds * World.

Notation names_loop := (names_loop has_policy get run_now).
Notation run_by_names :=
  (run_by_names SchedulePolicies all_schedule_policies has_policy get run_now).
Notation NamesProcessed := (NamesProcessed has_policy get run_now).

Lemma names_loop_after_processed (before : list string) (w w1 : World)
  (lines : list (line SdkError JobIds)) :
  NamesProcessed before w lines w1 ->
  forall rest out,
    names_loop (before ++ rest) w out = names_loop rest w1 (out ++ lines).
Proof.
  induction 1 as [w|name before w wa w' ls Hh _ IH
                 |name before w wa wb wc w' p ids ls Hh Hg Hr _ IH
                 |name before w wa wb wc w' p e ls Hh Hg Hr _ IH];
    intros rest out.
  - now rewrite app_nil_r.
  - cbn [app RunSchedules.names_loop]. rewrite Hh, IH, <- app_assoc. reflexivity.
  - cbn [app RunSchedules.names_loop]. rewrite Hh, Hg, Hr, IH, <- app_assoc.
    reflexivity.
  - cbn [app RunSchedules.names_loop]. rewrite Hh, Hg, Hr, IH, <- app_assoc.
    reflexivity.
Qed.

(** By name, a lookup that raises ends the batch: the names before it
    have been processed and their lines printed, the names after it are
    never looked up, and the exception leaves [run_by_names]. *)
Theorem names_batch_stops_at_failed_lookup
  (before : list string) (name : string) (rest : list string)
  (w wa wb w1 w2 : World) (n : nat) (e : SdkError)
  (lines out : list (line SdkError JobIds)) :
  SchedulePolicies w = (Val tt, wa) ->
  all_schedule_policies wa = (Val n, wb) ->
  NamesProcessed before wb lines w1 ->
  (has_policy name w1 = (Exc e, w2) \/
   exists w', has_policy name w1 = (Val true, w') /\
              get (ByName name) w' = (Exc e, w2)) ->
  run_by_names (before ++ name :: rest) w out =
  (Exc e, w2, out ++ InfoFound n :: lines).
Proof.
  intros Hnew Hall Hbefore Hfail.
  unfold RunSchedules.run_by_names. rewrite Hnew, Hall.
  rewrite (names_loop_after_processed before wb w1 lines Hbefore).
  rewrite <- app_assoc. cbn [app RunSchedules.names_loop].
  destruct Hfail as [Hh|(w' & Hh & Hg)].
  - now rewrite Hh.
  - now rewrite Hh, Hg.
Qed.

(** Whatever the SDK does, [run_by_names] keeps the lines printed
    before it and adds at most the "found" line and one line for each
    name. *)
Theorem run_by_names_output (names : list string) (w : World)
  (out : list (line SdkError JobIds)) :
  exists lines,
    snd (run_by_names names w out) = out ++ lines /\
    (List.length lines <= 1 + List.length names)%nat.
Proof.
  assert (Hloop : forall names w out, exists lines,
             snd (names_loop names w out) = out ++ lines /\
             (List.length lines <= List.length names)%nat).
  { clear. induction names as [|name rest IH]; intros w out.
    - exists []. cbn. now rewrite app_nil_r.
    - cbn [RunSchedules.names_loop].
      destruct (has_policy name w) as [[[|]|e] w1].
      + destruct (get (ByName name) w1) as [[p|e] w2].
        * destruct (run_now p w2) as [[ids|e] w3];
            match goal with
            | |- context [RunSchedules.names_loop _ _ _ rest ?w' ?o] =>
                destruct (IH w' o) as (ls & -> & Hn)
            end;
            eexists (_ :: ls); rewrite <- app_assoc;
            (split; [reflexivity|cbn; lia]).
        * exists []. cbn. rewrite app_nil_r. split; [reflexivity|lia].
      + destruct (IH w1 (out ++ [WarnNameNotFound name])) as (ls & -> & Hn).
        eexists (_ :: ls). rewrite <- app_assoc. split; [reflexivity|cbn; lia].
      + exists []. cbn. rewrite app_nil_r. split; [reflexivity|lia]. }
  unfold RunSchedules.run_by_names.
  destruct (SchedulePolicies w) as [[[]|e] w1].
  - destruct (all_schedule_policies w1) as [[n|e] w2].
    + destruct (Hloop names w2 (out ++ [InfoFound n])) as (ls & -> & Hn).
      exists (InfoFound n :: ls). rewrite <- app_assoc.
      split; [reflexivity|cbn; lia].
    + exists []. cbn. rewrite app_nil_r. split; [reflexivity|lia].
  - exists []. cbn. rewrite app_nil_r. split; [reflexivity|lia].
Qed.

End Invocation.

Lemma names_batch_stops_at_failed_lookup_witness :
  run_by_names sample_SchedulePolicies sample_all_schedule_policies
    sample_has_policy sample_flaky_get sample_run_now
    ["Nightly"; "Weekly"; "Nightly"] [] [] =
  (Exc "connection reset",
   ["SchedulePolicies"; "all_schedule_policies";
    "has_policy Nightly"; "get Nightly"; "run_now Nightly";
    "has_policy Weekly"; "get Weekly"],
   [InfoFound 2; OkName "Nightly" [9001%Z]]).
Proof.
  apply (names_batch_stops_at_failed_lookup sample_world string string (list Z)
           sample_SchedulePolicies sample_all_schedule_policies
           sample_has_policy sample_flaky_get sample_run_now
           ["Nightly"] "Weekly" ["Nightly"]
           [] ["SchedulePolicies"]
           ["SchedulePolicies"; "all_schedule_policies"]
           ["SchedulePolicies"; "all_schedule_policies";
            "has_policy Nightly"; "get Nightly"; "run_now Nightly"]
           _ 2%nat "connection reset"
           [OkName "Nightly" [9001%Z]] []).
  - reflexivity.
  - reflexivity.
  - eapply NP_started; [reflexivity|reflexivity|reflexivity|constructor].
  - right. eexists. split; reflexivity.
Defined.

End InvocationExtras.
